(** * hass-sunpower: the retrying JSON fetcher of [sunpower.py]

    A shallow embedding of [custom_components/sunpower/sunpower.py]:
    the module constants, the two exception classes, the class
    [SunPowerMonitor] with [_request_with_retry] and its three endpoint
    methods.  The effects of the module (HTTP GET through
    [requests.get], [time.sleep], the logger) are kept as a trace of
    events; the network is an oracle that answers the successive GET
    requests. *)

From Stdlib Require Import List String ZArith Bool Lia DecimalString.
Set Warnings "-register-all".
Import ListNotations.
Local Open Scope string_scope.
Local Open Scope Z_scope.

(** ** Python values used by the module *)

Module Py.

(** [str(n)], [%d] and [{n}] of a Python [int]. *)
Definition str_int (n : Z) : string := NilZero.string_of_int (Z.to_int n).

(** [range(n)] as the list of the integers it yields. *)
Definition range (n : Z) : list Z := map Z.of_nat (seq 0 (Z.to_nat n)).

(** [l[i]] on a Python list: indices count from the end when negative,
    and [None] stands for the [IndexError] of an index out of range. *)
Definition getitem {A : Type} (l : list A) (i : Z) : option A :=
  let n := Z.of_nat (List.length l) in
  if (0 <=? i) && (i <? n) then nth_error l (Z.to_nat i)
  else if (- n <=? i) && (i <? 0) then nth_error l (Z.to_nat (n + i))
  else None.

(** The exception classes named by the handlers of
    [_request_with_retry]: [requests.exceptions.ConnectionError],
    [requests.exceptions.Timeout],
    [requests.exceptions.RequestException] and
    [simplejson.errors.JSONDecodeError]. *)
Inductive ExcClass : Set :=
| ConnectionError
| Timeout
| RequestException
| JSONDecodeError.

Definition ExcClass_eqb (a b : ExcClass) : bool :=
  match a, b with
  | ConnectionError, ConnectionError
  | Timeout, Timeout
  | RequestException, RequestException
  | JSONDecodeError, JSONDecodeError => true
  | _, _ => false
  end.

(** An exception raised inside the [try] block.  An [except C]
    clause selects by [isinstance], so what the handlers see of an
    exception is which of the four classes it is an instance of
    ([err_classes]) and its [str()] ([err_str]). *)
Record PyError : Set := mkPyError
  { err_classes : list ExcClass;
    err_str : string }.

Definition isinstance (e : PyError) (c : ExcClass) : bool :=
  existsb (ExcClass_eqb c) (err_classes e).

(** [str(x)] for the variable [last_error], which is [None] or an
    exception. *)
Definition str_opt_error (o : option PyError) : string :=
  match o with
  | None => "None"
  | Some e => err_str e
  end.

(** A parsed JSON document, as [response.json()] returns it. *)
Inductive JSON : Set :=
| JNull
| JBool (b : bool)
| JInt (n : Z)
| JStr (s : string)
| JList (items : list JSON)
| JDict (items : list (string * JSON)).

End Py.
Import Py.

(** ** The exceptions of the [requests] and [simplejson] libraries

    Class membership as the libraries declare it
    ([requests/exceptions.py]):
    - [class ConnectionError(RequestException)]
    - [class Timeout(RequestException)]
    - [class ConnectTimeout(ConnectionError, Timeout)]
    - [class ReadTimeout(Timeout)]
    - [class HTTPError(RequestException)]
    - [class InvalidJSONError(RequestException)]
    - [class JSONDecodeError(InvalidJSONError, CompatJSONDecodeError)]
      (requests 2.27 and later; [CompatJSONDecodeError] is
      [simplejson.JSONDecodeError] when simplejson is installed, and
      [Response.json()] raises this class)
    - [simplejson.errors.JSONDecodeError(ValueError)]
      (what [Response.json()] raised before requests 2.27). *)

Module requests_exceptions.

Definition ConnectionError_ (msg : string) : PyError :=
  mkPyError [ConnectionError; RequestException] msg.
Definition Timeout_ (msg : string) : PyError :=
  mkPyError [Timeout; RequestException] msg.
Definition ConnectTimeout (msg : string) : PyError :=
  mkPyError [ConnectionError; Timeout; RequestException] msg.
Definition ReadTimeout (msg : string) : PyError :=
  mkPyError [Timeout; RequestException] msg.
Definition HTTPError (msg : string) : PyError :=
  mkPyError [RequestException] msg.
Definition JSONDecodeError_ (msg : string) : PyError :=
  mkPyError [RequestException; JSONDecodeError] msg.

End requests_exceptions.

Module simplejson_errors.

Definition JSONDecodeError_ (msg : string) : PyError :=
  mkPyError [JSONDecodeError] msg.

End simplejson_errors.

(** ** Effects: the network, the clock and the logger *)

Module Effects.

(** What [response.json()] does on a given response. *)
Inductive JsonResult : Set :=
| JsonValue (v : JSON)
| JsonRaises (e : PyError).

Record Response : Set := mkResponse
  { status_code : Z;
    json : JsonResult }.

(** What one call [requests.get(url, timeout=timeout)] does. *)
Inductive GetResult : Set :=
| GetReturns (r : Response)
| GetRaises (e : PyError).

(** The network: [net k url timeout] is what the [k]-th next call of
    [requests.get] does (counting from 0) when it is made with these
    arguments. *)
Definition Transport : Type := nat -> string -> Z -> GetResult.

Inductive LogLevel : Set := WARNING | ERROR.

Inductive Event : Set :=
| EvGet (url : string) (timeout : Z)      (* requests.get(url, timeout=timeout) *)
| EvSleep (seconds : Z)                   (* time.sleep(seconds) *)
| EvLog (level : LogLevel) (msg : string) (* _LOGGER.warning / _LOGGER.error *)
| EvDelayIndex (index : Z).               (* RETRY_DELAYS[index] is evaluated *)

(** The exceptions that can leave [_request_with_retry]: the two
    classes of the module, each with its message and the exception it
    was raised [from]; the [IndexError] of a list index out of range;
    an exception of the [try] block that no handler selects. *)
Inductive Exn : Set :=
| ConnectionException (msg : string) (cause : option PyError)
| ParseException (msg : string) (cause : option PyError)
| IndexError
| Unhandled (e : PyError).

Inductive Result (A : Type) : Type :=
| Val (a : A)
| Exc (e : Exn).
Arguments Val {A} a.
Arguments Exc {A} e.

(** A computation reads the network, and gives a result, the events
    it emitted in order, and the network left for later calls. *)
Record Run (A : Type) : Type := mkRun
  { result : Result A;
    emitted : list Event;
    remaining : Transport }.
Arguments mkRun {A} _ _ _.
Arguments result {A} _.
Arguments emitted {A} _.
Arguments remaining {A} _.

Definition M (A : Type) : Type := Transport -> Run A.

(** The network once its next call has been consumed. *)
Definition next (net : Transport) : Transport := fun k => net (S k).

Definition ret {A : Type} (a : A) : M A :=
  fun net => mkRun (Val a) [] net.

Definition raise {A : Type} (e : Exn) : M A :=
  fun net => mkRun (Exc e) [] net.

Definition bind {A B : Type} (m : M A) (k : A -> M B) : M B :=
  fun net =>
    let r := m net in
    match result r with
    | Exc e => mkRun (Exc e) (emitted r) (remaining r)
    | Val a =>
        let r' := k a (remaining r) in
        mkRun (result r') (emitted r ++ emitted r')%list (remaining r')
    end.

(** A run that comes after the events [evs]. *)
Definition prepend {A : Type} (evs : list Event) (r : Run A) : Run A :=
  mkRun (result r) (evs ++ emitted r)%list (remaining r).

Definition emit (ev : Event) : M unit :=
  fun net => mkRun (Val tt) [ev] net.

(** [requests.get(url, timeout=timeout)], the exception it raises being
    handed to the caller as a value. *)
Definition requests_get (url : string) (timeout : Z) : M GetResult :=
  fun net => mkRun (Val (net 0%nat url timeout)) [EvGet url timeout]
                   (next net).

Definition time_sleep (seconds : Z) : M unit := emit (EvSleep seconds).

Definition log (level : LogLevel) (msg : string) : M unit :=
  emit (EvLog level msg).

(** [l[i]] for a list of the module, recorded in the trace. *)
Definition index_delays (l : list Z) (i : Z) : M Z :=
  fun net =>
    match getitem l i with
    | Some d => mkRun (Val d) [EvDelayIndex i] net
    | None => mkRun (Exc IndexError) [EvDelayIndex i] net
    end.

(** The events of one kind in a trace. *)
Definition gets (t : list Event) : list (string * Z) :=
  flat_map (fun ev => match ev with EvGet u s => [(u, s)] | _ => [] end) t.

Definition sleeps (t : list Event) : list Z :=
  flat_map (fun ev => match ev with EvSleep s => [s] | _ => [] end) t.

Definition delay_indices (t : list Event) : list Z :=
  flat_map (fun ev => match ev with EvDelayIndex i => [i] | _ => [] end) t.

End Effects.
Import Effects.

Declare Scope py_scope.
Notation "x <- m ;; k" := (bind m (fun x => k))
  (at level 61, m at next level, right associativity) : py_scope.
Notation "m ;;; k" := (bind m (fun _ => k))
  (at level 61, right associativity) : py_scope.
Local Open Scope py_scope.

(** ** [sunpower.py] *)

Module sunpower.

(** Retry configuration *)
Definition MAX_RETRIES : Z := 3.
Definition RETRY_DELAYS : list Z := [2; 5; 10]. (* Seconds between retries *)

Record SunPowerMonitor : Set := mkSunPowerMonitor
  { host : string;
    command_url : string }.

(** [SunPowerMonitor.__init__] *)
Definition __init__ (host : string) : SunPowerMonitor :=
  {| host := host;
     command_url := "http://" ++ host ++ "/cgi-bin/dl_cgi?Command=" |}.

(** The body of the [try] statement of one attempt:
    [response = requests.get(url, timeout=timeout)] then
    [return response.json()]; the result is the value returned or the
    exception raised. *)
Definition try_block (url : string) (timeout : Z) : M JsonResult :=
  g <- requests_get url timeout ;;
  match g with
  | GetRaises e => ret (JsonRaises e)
  | GetReturns response => ret (json response)
  end.

(** How one turn of the [for] loop ends. *)
Inductive Flow : Set :=
| Return (v : JSON)
| Continue (last_error : option PyError)
| Break (last_error : option PyError).

(** The [except] clauses of the [try] statement, tried in the order
    of the source on the exception [error] that the [try] block raised
    in attempt number [attempt]; [last_error] is assigned in two of
    them and is handed on with the [Flow]. *)
Definition except_clauses (timeout : Z) (attempt : Z) (error : PyError)
    : M Flow :=
  if isinstance error ConnectionError then
    let last_error := Some error in
    if attempt <? MAX_RETRIES - 1 then
      delay <- index_delays RETRY_DELAYS attempt ;;
      log WARNING
        ("PVS connection failed (attempt " ++ str_int (attempt + 1)
         ++ "/" ++ str_int MAX_RETRIES ++ "), retrying in "
         ++ str_int delay ++ "s: " ++ err_str error) ;;;
      time_sleep delay ;;;
      ret (Continue last_error)
    else
      log ERROR
        ("PVS connection failed after " ++ str_int MAX_RETRIES
         ++ " attempts: " ++ err_str error) ;;;
      ret (Continue last_error)
  else if isinstance error Timeout then
    (* Don't retry timeouts - they already waited long enough *)
    log ERROR
      ("PVS request timed out after " ++ str_int timeout ++ "s: "
       ++ err_str error) ;;;
    raise (ConnectionException
             ("PVS request timed out after " ++ str_int timeout ++ "s")
             (Some error))
  else if isinstance error RequestException then
    let last_error := Some error in
    log ERROR ("PVS request failed: " ++ err_str error) ;;;
    ret (Break last_error)
  else if isinstance error JSONDecodeError then
    log ERROR ("PVS returned invalid JSON: " ++ err_str error) ;;;
    raise (ParseException
             ("Invalid JSON response from PVS: " ++ err_str error)
             (Some error))
  else raise (Unhandled error).

(** One turn of the loop: the [try] statement.  A turn that raises
    nothing leaves the function through [return]. *)
Definition attempt_once (url : string) (timeout : Z) (attempt : Z) : M Flow :=
  r <- try_block url timeout ;;
  match r with
  | JsonValue v => ret (Return v)
  | JsonRaises error => except_clauses timeout attempt error
  end.

(** [for attempt in attempts: ...]; the loop gives the value of a
    [return] in its body, or else the [last_error] it ends with. *)
Fixpoint for_attempts (url : string) (timeout : Z) (attempts : list Z)
    (last_error : option PyError) : M (JSON + option PyError) :=
  match attempts with
  | [] => ret (inr last_error)
  | attempt :: later =>
      f <- attempt_once url timeout attempt ;;
      match f with
      | Return v => ret (inl v)
      | Continue last_error' => for_attempts url timeout later last_error'
      | Break last_error' => ret (inr last_error')
      end
  end.

(** [SunPowerMonitor._request_with_retry(self, url, timeout=120)] *)
Definition _request_with_retry (self : SunPowerMonitor) (url : string)
    (timeout : Z) : M JSON :=
  r <- for_attempts url timeout (range MAX_RETRIES) None ;;
  match r with
  | inl v => ret v
  | inr last_error =>
      raise (ConnectionException
               ("Failed to connect to PVS after " ++ str_int MAX_RETRIES
                ++ " attempts: " ++ str_opt_error last_error)
               last_error)
  end.

(** [SunPowerMonitor.generic_command] *)
Definition generic_command (self : SunPowerMonitor) (command : string)
    : M JSON :=
  _request_with_retry self (command_url self ++ command) 120.

(** [SunPowerMonitor.device_list] *)
Definition device_list (self : SunPowerMonitor) : M JSON :=
  generic_command self "DeviceList".

(** [SunPowerMonitor.energy_storage_system_status] *)
Definition energy_storage_system_status (self : SunPowerMonitor) : M JSON :=
  let url := "http://" ++ host self
             ++ "/cgi-bin/dl_cgi/energy-storage-system/status" in
  _request_with_retry self url 120.

(** [SunPowerMonitor.network_status] *)
Definition network_status (self : SunPowerMonitor) : M JSON :=
  generic_command self "Get_Comm".

End sunpower.
Import sunpower.

(** ** Vocabulary of the properties *)

(** How the [try] block of an attempt ends, given what [requests.get]
    does: with the value of [response.json()], or with the exception
    that [requests.get] or [response.json()] raises. *)
Definition try_outcome (g : GetResult) : JsonResult :=
  match g with
  | GetRaises e => JsonRaises e
  | GetReturns response => json response
  end.

(** An exception that one of the four [except] clauses selects. *)
Definition caught (e : PyError) : bool :=
  isinstance e ConnectionError || isinstance e Timeout
  || isinstance e RequestException || isinstance e JSONDecodeError.

(** The network only ever fails with exceptions of the [requests] and
    [simplejson] classes that the handlers name. *)
Definition transport_failures_only (net : Transport) : Prop :=
  forall k url timeout e,
    try_outcome (net k url timeout) = JsonRaises e -> caught e = true.

(** A call ends with a value, a [ConnectionException] or a
    [ParseException]. *)
Definition typed_result {A : Type} (r : Result A) : Prop :=
  match r with
  | Val _ => True
  | Exc (ConnectionException _ _) => True
  | Exc (ParseException _ _) => True
  | Exc IndexError => False
  | Exc (Unhandled _) => False
  end.

(** ** Concrete networks *)

Definition demo_url : string := "http://pvs/cgi-bin/dl_cgi?Command=DeviceList".

Definition demo_json : JSON := JDict [("result", JStr "succeed")].

Definition ok_response : Response := mkResponse 200 (JsonValue demo_json).

(** A network that refuses the first two connections and then answers. *)
Definition net_refused_twice : Transport :=
  fun k _ _ =>
    match k with
    | 0%nat => GetRaises (requests_exceptions.ConnectionError_ "refused 1")
    | 1%nat => GetRaises (requests_exceptions.ConnectionError_ "refused 2")
    | _ => GetReturns ok_response
    end.

(** A network that refuses every connection; the message tells the
    attempts apart. *)
Definition net_always_refused : Transport :=
  fun k _ _ =>
    GetRaises (requests_exceptions.ConnectionError_
                 ("refused " ++ str_int (Z.of_nat (S k)))).

(** A host that does not answer: [requests.get] raises [ConnectTimeout]
    once, then the host is back. *)
Definition net_connect_timeout_once : Transport :=
  fun k _ _ =>
    match k with
    | 0%nat => GetRaises (requests_exceptions.ConnectTimeout "connect timed out")
    | _ => GetReturns ok_response
    end.

(** A host that never answers: every [requests.get] raises
    [ConnectTimeout]. *)
Definition net_connect_timeout : Transport :=
  fun _ _ _ => GetRaises (requests_exceptions.ConnectTimeout "connect timed out").

(** A device that accepts the connection and then stays silent:
    [requests.get] raises [ReadTimeout]. *)
Definition net_read_timeout : Transport :=
  fun _ _ _ => GetRaises (requests_exceptions.ReadTimeout "read timed out").

(** A protocol-level failure, neither a connection error nor a timeout. *)
Definition net_http_error : Transport :=
  fun _ _ _ => GetRaises (requests_exceptions.HTTPError "too many redirects").

(** A 200 response with an HTML body, under requests 2.27 or later:
    [response.json()] raises [requests.exceptions.JSONDecodeError]. *)
Definition html_response : Response :=
  mkResponse 200
    (JsonRaises (requests_exceptions.JSONDecodeError_
                   "Expecting value: line 1 column 1 (char 0)")).

Definition net_html_body : Transport := fun _ _ _ => GetReturns html_response.

(** The same body under a requests older than 2.27: [response.json()]
    lets [simplejson.errors.JSONDecodeError] through. *)
Definition html_response_simplejson : Response :=
  mkResponse 200
    (JsonRaises (simplejson_errors.JSONDecodeError_
                   "Expecting value: line 1 column 1 (char 0)")).

Definition net_html_body_simplejson : Transport :=
  fun _ _ _ => GetReturns html_response_simplejson.

(** The calls on these networks that the properties below look at. *)
Definition pvs : SunPowerMonitor := __init__ "pvs".

Definition run_connect_timeout : Run JSON :=
  _request_with_retry pvs demo_url 120 net_connect_timeout.

Definition run_connect_timeout_once : Run JSON :=
  _request_with_retry pvs demo_url 120 net_connect_timeout_once.

Definition run_html_body : Run JSON :=
  _request_with_retry pvs demo_url 120 net_html_body.

(** ** Vocabulary of the further properties *)

Definition LogLevel_eqb (a b : LogLevel) : bool :=
  match a, b with
  | WARNING, WARNING | ERROR, ERROR => true
  | _, _ => false
  end.

(** The messages logged at one level in a trace, in order. *)
Definition logged (level : LogLevel) (t : list Event) : list string :=
  flat_map
    (fun ev =>
       match ev with
       | EvLog l msg => if LogLevel_eqb l level then [msg] else []
       | _ => []
       end) t.

(** The first [k] calls of [requests.get] with these arguments each
    raise a [ConnectionError]. *)
Definition refused_before (k : nat) (url : string) (timeout : Z)
    (net : Transport) : Prop :=
  forall i : nat, (i < k)%nat ->
    exists ei : PyError,
      net i url timeout = GetRaises ei /\
      isinstance ei ConnectionError = true.

(** Two networks on which the [try] blocks of the first [n] requests to
    [url] end alike. *)
Definition same_outcomes (n : nat) (url : string) (timeout : Z)
    (net net' : Transport) : Prop :=
  forall k : nat, (k < n)%nat ->
    try_outcome (net k url timeout) = try_outcome (net' k url timeout).

(** The request after which a call stopped, counting from 0. *)
Definition last_request {A : Type} (run : Run A) : nat :=
  (List.length (gets (emitted run)) - 1)%nat.

(** Further networks. *)

(** One refused connection, then a protocol-level failure. *)
Definition net_refused_then_http_error : Transport :=
  fun k _ _ =>
    match k with
    | 0%nat => GetRaises (requests_exceptions.ConnectionError_ "refused 1")
    | _ => GetRaises (requests_exceptions.HTTPError "too many redirects")
    end.

(** One refused connection, then an HTML body on which [response.json()]
    raises the [JSONDecodeError] of simplejson. *)
Definition net_refused_then_html : Transport :=
  fun k _ _ =>
    match k with
    | 0%nat => GetRaises (requests_exceptions.ConnectionError_ "refused 1")
    | _ => GetReturns html_response_simplejson
    end.

(** An exception of no class that the handlers name. *)
Definition KeyboardInterrupt : PyError := mkPyError [] "".

Definition net_interrupted : Transport :=
  fun k _ _ =>
    match k with
    | 0%nat => GetRaises (requests_exceptions.ConnectionError_ "refused 1")
    | _ => GetRaises KeyboardInterrupt
    end.

(** As [net_refused_twice] for the first three requests, but the third
    answer has status 500, and the network is down afterwards. *)
Definition net_refused_twice_500 : Transport :=
  fun k _ _ =>
    match k with
    | 0%nat => GetRaises (requests_exceptions.ConnectionError_ "refused 1")
    | 1%nat => GetRaises (requests_exceptions.ConnectionError_ "refused 2")
    | 2%nat => GetReturns (mkResponse 500 (JsonValue demo_json))
    | _ => GetRaises (requests_exceptions.ConnectionError_ "down")
    end.

(** One refused connection, then a device that accepts the connection
    and stays silent. *)
Definition net_refused_then_read_timeout : Transport :=
  fun k _ _ =>
    match k with
    | 0%nat => GetRaises (requests_exceptions.ConnectionError_ "refused 1")
    | _ => GetRaises (requests_exceptions.ReadTimeout "read timed out")
    end.

(** A call for [url] ends as its last request ended.  It made 1 to 3
    requests.  A value it returns is the JSON of the last request; an
    exception of the module that it raises is raised [from] the
    exception of the last request, which one of the clauses names; the
    only other exception that leaves it is the exception of the last
    request itself, when no clause names it. *)
Definition faithful_end (url : string) (timeout : Z) (net : Transport)
    (run : Run JSON) : Prop :=
  List.length (gets (emitted run)) = S (last_request run) /\
  (last_request run < 3)%nat /\
  match result run with
  | Val v => try_outcome (net (last_request run) url timeout) = JsonValue v
  | Exc (ConnectionException _ cause) | Exc (ParseException _ cause) =>
      exists e : PyError,
        cause = Some e /\
        caught e = true /\
        try_outcome (net (last_request run) url timeout) = JsonRaises e
  | Exc IndexError => False
  | Exc (Unhandled e) =>
      caught e = false /\
      try_outcome (net (last_request run) url timeout) = JsonRaises e
  end.

(** A [ValueError]: an exception of none of the classes of [requests]
    and simplejson that the handlers name. *)
Definition ValueError (msg : string) : PyError := mkPyError [] msg.

Definition net_value_error : Transport :=
  fun _ _ _ => GetRaises (ValueError "check_hostname requires server_hostname").

(** ** Verification *)

(** *** Python values *)

Example str_int_examples :
  str_int 120 = "120" /\ str_int 0 = "0" /\ str_int (-5) = "-5".
Proof. repeat split. Qed.

Example range_examples : range 3 = [0; 1; 2] /\ range 0 = [] /\ range (-1) = [].
Proof. repeat split. Qed.

Example getitem_examples :
  getitem [2; 5; 10] 1 = Some 5 /\
  getitem [2; 5; 10] (-1) = Some 10 /\
  getitem [2; 5; 10] 3 = None /\
  getitem [2; 5; 10] (-4) = None.
Proof. repeat split. Qed.

(** *** Equations of the monad *)

Lemma run_eta {A : Type} (r : Run A) :
  mkRun (result r) (emitted r) (remaining r) = r.
Proof. destruct r; reflexivity. Qed.

Lemma bind_ret_l {A B : Type} (a : A) (k : A -> M B) (net : Transport) :
  bind (ret a) k net = k a net.
Proof. unfold bind, ret. cbn. apply run_eta. Qed.

Lemma bind_ret_r {A : Type} (m : M A) (net : Transport) :
  bind m ret net = m net.
Proof.
  unfold bind, ret. destruct (m net) as [[a | e] evs rem]; cbn;
    rewrite ?app_nil_r; reflexivity.
Qed.

Lemma bind_assoc {A B C : Type} (m : M A) (k : A -> M B) (k' : B -> M C)
    (net : Transport) :
  bind (bind m k) k' net = bind m (fun a => bind (k a) k') net.
Proof.
  unfold bind. destruct (m net) as [[a | e] evs rem]; cbn; [| reflexivity].
  destruct (k a rem) as [[b | e] evs' rem']; cbn; [| reflexivity].
  rewrite app_assoc. reflexivity.
Qed.

Lemma bind_val {A B : Type} (m : M A) (k : A -> M B) (net net' : Transport)
    (a : A) (evs : list Event) :
  m net = mkRun (Val a) evs net' ->
  bind m k net = prepend evs (k a net').
Proof. intros H. unfold bind. rewrite H. reflexivity. Qed.

Lemma bind_exc {A B : Type} (m : M A) (k : A -> M B) (net net' : Transport)
    (e : Exn) (evs : list Event) :
  m net = mkRun (Exc e) evs net' ->
  bind m k net = mkRun (Exc e) evs net'.
Proof. intros H. unfold bind. rewrite H. reflexivity. Qed.

Lemma try_block_run (url : string) (timeout : Z) (net : Transport) :
  try_block url timeout net
  = mkRun (Val (try_outcome (net 0%nat url timeout))) [EvGet url timeout]
          (next net).
Proof.
  unfold try_block, bind, requests_get, try_outcome. cbn.
  destruct (net 0%nat url timeout); reflexivity.
Qed.

Lemma attempt_once_run (url : string) (timeout attempt : Z) (net : Transport) :
  attempt_once url timeout attempt net
  = prepend [EvGet url timeout]
      (match try_outcome (net 0%nat url timeout) with
       | JsonValue v => ret (Return v)
       | JsonRaises error => except_clauses timeout attempt error
       end (next net)).
Proof.
  unfold attempt_once.
  rewrite (bind_val _ _ _ _ _ _ (try_block_run url timeout net)).
  reflexivity.
Qed.

(** *** The handlers, clause by clause *)

Section Handlers.

Variables (timeout attempt : Z) (error : PyError) (net : Transport).

Lemma except_retry (delay : Z) :
  isinstance error ConnectionError = true ->
  (attempt <? MAX_RETRIES - 1) = true ->
  getitem RETRY_DELAYS attempt = Some delay ->
  except_clauses timeout attempt error net
  = mkRun (Val (Continue (Some error)))
      [ EvDelayIndex attempt;
        EvLog WARNING
          ("PVS connection failed (attempt " ++ str_int (attempt + 1)
           ++ "/3), retrying in " ++ str_int delay ++ "s: "
           ++ err_str error);
        EvSleep delay ]
      net.
Proof.
  intros Hc Hlt Hd. unfold except_clauses. rewrite Hc, Hlt.
  unfold bind, index_delays. rewrite Hd. reflexivity.
Qed.

Lemma except_index_error :
  isinstance error ConnectionError = true ->
  (attempt <? MAX_RETRIES - 1) = true ->
  getitem RETRY_DELAYS attempt = None ->
  except_clauses timeout attempt error net
  = mkRun (Exc IndexError) [EvDelayIndex attempt] net.
Proof.
  intros Hc Hlt Hd. unfold except_clauses. rewrite Hc, Hlt.
  unfold bind, index_delays. rewrite Hd. reflexivity.
Qed.

Lemma except_last_attempt :
  isinstance error ConnectionError = true ->
  (attempt <? MAX_RETRIES - 1) = false ->
  except_clauses timeout attempt error net
  = mkRun (Val (Continue (Some error)))
      [ EvLog ERROR
          ("PVS connection failed after 3 attempts: " ++ err_str error) ]
      net.
Proof.
  intros Hc Hlt. unfold except_clauses. rewrite Hc, Hlt. reflexivity.
Qed.

Lemma except_timeout :
  isinstance error ConnectionError = false ->
  isinstance error Timeout = true ->
  except_clauses timeout attempt error net
  = mkRun (Exc (ConnectionException
                  ("PVS request timed out after " ++ str_int timeout ++ "s")
                  (Some error)))
      [ EvLog ERROR
          ("PVS request timed out after " ++ str_int timeout ++ "s: "
           ++ err_str error) ]
      net.
Proof.
  intros Hc Ht. unfold except_clauses. rewrite Hc, Ht. reflexivity.
Qed.

Lemma except_request_exception :
  isinstance error ConnectionError = false ->
  isinstance error Timeout = false ->
  isinstance error RequestException = true ->
  except_clauses timeout attempt error net
  = mkRun (Val (Break (Some error)))
      [ EvLog ERROR ("PVS request failed: " ++ err_str error) ]
      net.
Proof.
  intros Hc Ht Hr. unfold except_clauses. rewrite Hc, Ht, Hr. reflexivity.
Qed.

Lemma except_json :
  isinstance error ConnectionError = false ->
  isinstance error Timeout = false ->
  isinstance error RequestException = false ->
  isinstance error JSONDecodeError = true ->
  except_clauses timeout attempt error net
  = mkRun (Exc (ParseException
                  ("Invalid JSON response from PVS: " ++ err_str error)
                  (Some error)))
      [ EvLog ERROR ("PVS returned invalid JSON: " ++ err_str error) ]
      net.
Proof.
  intros Hc Ht Hr Hj. unfold except_clauses. rewrite Hc, Ht, Hr, Hj.
  reflexivity.
Qed.

Lemma except_none :
  caught error = false ->
  except_clauses timeout attempt error net
  = mkRun (Exc (Unhandled error)) [] net.
Proof.
  unfold caught. intros H.
  apply orb_false_elim in H as [H Hj].
  apply orb_false_elim in H as [H Hr].
  apply orb_false_elim in H as [Hc Ht].
  unfold except_clauses. rewrite Hc, Ht, Hr, Hj. reflexivity.
Qed.

End Handlers.

(** *** One turn of the loop *)

Lemma for_attempts_cons (url : string) (timeout attempt : Z) (later : list Z)
    (last_error : option PyError) (net : Transport) :
  for_attempts url timeout (attempt :: later) last_error net
  = match try_outcome (net 0%nat url timeout) with
    | JsonValue v => mkRun (Val (inl v)) [EvGet url timeout] (next net)
    | JsonRaises error =>
        let h := except_clauses timeout attempt error (next net) in
        match result h with
        | Val (Return v) =>
            mkRun (Val (inl v)) (EvGet url timeout :: emitted h) (remaining h)
        | Val (Continue last_error') =>
            prepend (EvGet url timeout :: emitted h)
              (for_attempts url timeout later last_error' (remaining h))
        | Val (Break last_error') =>
            mkRun (Val (inr last_error')) (EvGet url timeout :: emitted h)
              (remaining h)
        | Exc e => mkRun (Exc e) (EvGet url timeout :: emitted h) (remaining h)
        end
    end.
Proof.
  cbn [for_attempts]. unfold bind at 1. rewrite attempt_once_run.
  destruct (try_outcome (net 0%nat url timeout)) as [v | error]; [reflexivity |].
  destruct (except_clauses timeout attempt error (next net))
    as [[[v | le | le] | e] evs rem];
    unfold prepend, ret; cbn [result emitted remaining app];
    rewrite ?app_nil_r; reflexivity.
Qed.

(** [_request_with_retry] after the loop. *)
Lemma request_with_retry_run (self : SunPowerMonitor) (url : string)
    (timeout : Z) (net : Transport) :
  _request_with_retry self url timeout net
  = let r := for_attempts url timeout [0; 1; 2] None net in
    mkRun
      match result r with
      | Val (inl v) => Val v
      | Val (inr last_error) =>
          Exc (ConnectionException
                 ("Failed to connect to PVS after 3 attempts: "
                  ++ str_opt_error last_error)
                 last_error)
      | Exc e => Exc e
      end
      (emitted r) (remaining r).
Proof.
  unfold _request_with_retry, bind.
  change (range MAX_RETRIES) with [0; 1; 2].
  destruct (for_attempts url timeout [0; 1; 2] None net)
    as [[[v | last_error] | e] evs rem];
    unfold ret, raise; cbn [result emitted remaining]; rewrite ?app_nil_r;
    reflexivity.
Qed.

Lemma outcome_get_raises (net : Transport) (k : nat) (url : string)
    (timeout : Z) (e : PyError) :
  net k url timeout = GetRaises e ->
  try_outcome (net k url timeout) = JsonRaises e.
Proof. intros H. rewrite H. reflexivity. Qed.

Lemma outcome_json (net : Transport) (k : nat) (url : string) (timeout : Z)
    (response : Response) (j : JsonResult) :
  net k url timeout = GetReturns response ->
  json response = j ->
  try_outcome (net k url timeout) = j.
Proof. intros H J. rewrite H. exact J. Qed.

(** Run the next turn of the loop: [Hout] tells how its [try] block
    ends, [Heq] which handler runs. *)
Ltac turn_value Hout :=
  rewrite for_attempts_cons; change (next ?n 0%nat) with (n 1%nat);
  change (next ?n 1%nat) with (n 2%nat); rewrite Hout.

Ltac turn_raises Hout Heq :=
  rewrite for_attempts_cons; change (next ?n 0%nat) with (n 1%nat);
  change (next ?n 1%nat) with (n 2%nat); rewrite Hout, Heq;
  cbv zeta; cbn [result emitted remaining].

Ltac finish_run := unfold prepend; cbn [result emitted remaining app]; repeat split.

(** *** What every handler does *)

(** Split on the clause that selects [error], and replace the run of the
    handlers by the run of that clause. *)
Ltac handler_cases timeout attempt error net :=
  let Hc := fresh "Hc" in
  let Ht := fresh "Ht" in
  let Hr := fresh "Hr" in
  let Hj := fresh "Hj" in
  let Hlt := fresh "Hlt" in
  let Hd := fresh "Hd" in
  let delay := fresh "delay" in
  destruct (isinstance error ConnectionError) eqn:Hc;
  [ destruct (attempt <? MAX_RETRIES - 1) eqn:Hlt;
    [ destruct (getitem RETRY_DELAYS attempt) as [delay |] eqn:Hd;
      [ rewrite (except_retry timeout attempt error net delay Hc Hlt Hd)
      | rewrite (except_index_error timeout attempt error net Hc Hlt Hd) ]
    | rewrite (except_last_attempt timeout attempt error net Hc Hlt) ]
  | destruct (isinstance error Timeout) eqn:Ht;
    [ rewrite (except_timeout timeout attempt error net Hc Ht)
    | destruct (isinstance error RequestException) eqn:Hr;
      [ rewrite (except_request_exception timeout attempt error net Hc Ht Hr)
      | destruct (isinstance error JSONDecodeError) eqn:Hj;
        [ rewrite (except_json timeout attempt error net Hc Ht Hr Hj)
        | rewrite (except_none timeout attempt error net)
            by (unfold caught; rewrite Hc, Ht, Hr, Hj; reflexivity) ] ] ] ].

(** The entries of [RETRY_DELAYS] that the guard
    [attempt < MAX_RETRIES - 1] lets the loop read. *)
Lemma getitem_RETRY_DELAYS (attempt : Z) :
  0 <= attempt ->
  (attempt <? MAX_RETRIES - 1) = true ->
  (attempt = 0 /\ getitem RETRY_DELAYS attempt = Some 2) \/
  (attempt = 1 /\ getitem RETRY_DELAYS attempt = Some 5).
Proof.
  intros Hpos Hlt. apply Z.ltb_lt in Hlt. unfold MAX_RETRIES in Hlt.
  assert (attempt = 0 \/ attempt = 1) as [-> | ->] by lia;
    [left | right]; split; reflexivity.
Qed.

Lemma except_clauses_remaining (timeout attempt : Z) (error : PyError)
    (net : Transport) :
  remaining (except_clauses timeout attempt error net) = net.
Proof. handler_cases timeout attempt error net; reflexivity. Qed.

Lemma except_clauses_gets (timeout attempt : Z) (error : PyError)
    (net : Transport) :
  gets (emitted (except_clauses timeout attempt error net)) = [].
Proof. handler_cases timeout attempt error net; reflexivity. Qed.

Lemma except_clauses_no_return (timeout attempt : Z) (error : PyError)
    (net : Transport) (v : JSON) :
  result (except_clauses timeout attempt error net) <> Val (Return v).
Proof. handler_cases timeout attempt error net; discriminate. Qed.

(** A handler reads [RETRY_DELAYS] at most once, at an index below
    [MAX_RETRIES - 1], and sleeps for what it read: 2 or 5 seconds. *)
Lemma except_clauses_delays (timeout attempt : Z) (error : PyError)
    (net : Transport) :
  0 <= attempt ->
  let h := except_clauses timeout attempt error net in
  result h <> Exc IndexError /\
  Forall (fun i => 0 <= i < MAX_RETRIES - 1) (delay_indices (emitted h)) /\
  Forall (fun d => d = 2 \/ d = 5) (sleeps (emitted h)).
Proof.
  intros Hpos h. subst h.
  handler_cases timeout attempt error net; cbn;
    (split; [| split]); try discriminate;
    repeat (apply Forall_cons || apply Forall_nil).
  - apply Z.ltb_lt in Hlt. unfold MAX_RETRIES in Hlt. lia.
  - destruct (getitem_RETRY_DELAYS attempt Hpos Hlt) as [[_ Hd'] | [_ Hd']];
      rewrite Hd' in Hd; injection Hd as <-; auto.
  - destruct (getitem_RETRY_DELAYS attempt Hpos Hlt) as [[_ Hd'] | [_ Hd']];
      congruence.
  - apply Z.ltb_lt in Hlt. unfold MAX_RETRIES in Hlt. lia.
Qed.

(** An exception that some clause selects never leaves the handlers as
    it came. *)
Lemma except_clauses_caught (timeout attempt : Z) (error : PyError)
    (net : Transport) (e : PyError) :
  caught error = true ->
  result (except_clauses timeout attempt error net) <> Exc (Unhandled e).
Proof.
  intros Hcaught.
  handler_cases timeout attempt error net; try discriminate.
  unfold caught in Hcaught. rewrite Hc, Ht, Hr, Hj in Hcaught. discriminate.
Qed.

(** *** The loop, for any list of attempts *)

Lemma gets_app (t1 t2 : list Event) : gets (t1 ++ t2) = (gets t1 ++ gets t2)%list.
Proof. apply flat_map_app. Qed.

Lemma sleeps_app (t1 t2 : list Event) :
  sleeps (t1 ++ t2) = (sleeps t1 ++ sleeps t2)%list.
Proof. apply flat_map_app. Qed.

Lemma delay_indices_app (t1 t2 : list Event) :
  delay_indices (t1 ++ t2) = (delay_indices t1 ++ delay_indices t2)%list.
Proof. apply flat_map_app. Qed.

Lemma gets_cons_get (url : string) (timeout : Z) (t : list Event) :
  gets (EvGet url timeout :: t) = (url, timeout) :: gets t.
Proof. reflexivity. Qed.

(** Unfold one turn of the loop and split on how it ends; [Hout] names
    the outcome of the [try] block, [Hh] the run of the handlers. *)
Ltac loop_cases url timeout attempt net :=
  rewrite (for_attempts_cons url timeout attempt);
  let v := fresh "v" in
  let error := fresh "error" in
  let Hout := fresh "Hout" in
  let Hh := fresh "Hh" in
  let evs := fresh "evs" in
  let rem := fresh "rem" in
  let le := fresh "last_error'" in
  let ex := fresh "ex" in
  destruct (try_outcome (net 0%nat url timeout)) as [v | error] eqn:Hout;
  [ | pose proof (except_clauses_remaining timeout attempt error (next net))
        as Hrem;
      pose proof (except_clauses_gets timeout attempt error (next net))
        as Hnoget;
      pose proof (except_clauses_no_return timeout attempt error (next net))
        as Hnoreturn;
      pose proof (except_clauses_delays timeout attempt error (next net))
        as Hdelays;
      pose proof (except_clauses_caught timeout attempt error (next net))
        as Hcaught;
      destruct (except_clauses timeout attempt error (next net))
        as [[[v | le | le] | ex] evs rem] eqn:Hh;
      cbv zeta in *; unfold prepend; cbn [result emitted remaining] in * ].

(** The loop makes one request per turn, all with the same URL and
    timeout: at most as many as there are attempts, and at least one when
    there is an attempt to make. *)
Lemma for_attempts_gets (url : string) (timeout : Z) (attempts : list Z) :
  forall (last_error : option PyError) (net : Transport),
  exists n : nat,
    gets (emitted (for_attempts url timeout attempts last_error net))
    = repeat (url, timeout) n /\
    (n <= List.length attempts)%nat /\
    (attempts <> [] -> (1 <= n)%nat).
Proof.
  induction attempts as [| attempt later IH]; intros last_error net.
  - exists 0%nat. cbn. repeat split; [lia | congruence].
  - loop_cases url timeout attempt net.
    + exists 1%nat. cbn. repeat split; lia.
    + exists 1%nat. rewrite gets_cons_get, Hnoget. cbn. repeat split; lia.
    + destruct (IH last_error' rem) as (n & Hn & Hle & _).
      exists (S n). rewrite gets_app, gets_cons_get, Hnoget, Hn. cbn.
      repeat split; lia.
    + exists 1%nat. rewrite gets_cons_get, Hnoget. cbn. repeat split; lia.
    + exists 1%nat. rewrite gets_cons_get, Hnoget. cbn. repeat split; lia.
Qed.

(** On attempts numbered from 0 up, the loop never reads [RETRY_DELAYS]
    out of range: every index it uses is below [MAX_RETRIES - 1], and
    every sleep lasts 2 or 5 seconds. *)
Lemma for_attempts_delays (url : string) (timeout : Z) (attempts : list Z) :
  Forall (fun a => 0 <= a) attempts ->
  forall (last_error : option PyError) (net : Transport),
  let r := for_attempts url timeout attempts last_error net in
  result r <> Exc IndexError /\
  Forall (fun i => 0 <= i < MAX_RETRIES - 1) (delay_indices (emitted r)) /\
  Forall (fun d => d = 2 \/ d = 5) (sleeps (emitted r)).
Proof.
  induction 1 as [| attempt later Hpos Hlater IH]; intros last_error net r;
    subst r.
  - cbn. split; [discriminate | split; constructor].
  - loop_cases url timeout attempt net.
    + cbn. split; [discriminate | split; constructor].
    + exfalso. exact (Hnoreturn v eq_refl).
    + destruct (Hdelays Hpos) as (_ & Hidx & Hsl).
      destruct (IH last_error' rem) as (Hres & Hidx' & Hsl').
      change (EvGet url timeout :: evs) with ([EvGet url timeout] ++ evs)%list.
      rewrite !delay_indices_app, !sleeps_app. cbn [delay_indices sleeps flat_map app].
      split; [exact Hres | split; apply Forall_app; split; assumption].
    + destruct (Hdelays Hpos) as (_ & Hidx & Hsl).
      split; [discriminate | split; assumption].
    + destruct (Hdelays Hpos) as (Hres & Hidx & Hsl).
      split; [intros Heq; apply Hres; congruence | split; assumption].
Qed.

Lemma transport_failures_only_next (net : Transport) :
  transport_failures_only net -> transport_failures_only (next net).
Proof. intros H k url timeout e. apply (H (S k)). Qed.

(** When the network fails only with exceptions that the handlers name,
    no exception of the [try] block leaves the loop. *)
Lemma for_attempts_caught (url : string) (timeout : Z) (attempts : list Z) :
  forall (last_error : option PyError) (net : Transport) (e : PyError),
  transport_failures_only net ->
  result (for_attempts url timeout attempts last_error net)
  <> Exc (Unhandled e).
Proof.
  induction attempts as [| attempt later IH]; intros last_error net e Hnet.
  - discriminate.
  - loop_cases url timeout attempt net; try discriminate.
    + subst rem. apply IH, transport_failures_only_next, Hnet.
    + intros Heq.
      apply (Hcaught e (Hnet 0%nat url timeout error Hout)). congruence.
Qed.

(** The loop returns a value only from a [try] block that ended with
    that value, and it made no request after that one. *)
Lemma for_attempts_value (url : string) (timeout : Z) (attempts : list Z) :
  forall (last_error : option PyError) (net : Transport) (v : JSON),
  result (for_attempts url timeout attempts last_error net) = Val (inl v) ->
  exists k : nat,
    (k < List.length attempts)%nat /\
    try_outcome (net k url timeout) = JsonValue v /\
    List.length (gets (emitted (for_attempts url timeout attempts last_error net)))
    = S k.
Proof.
  induction attempts as [| attempt later IH]; intros last_error net v.
  - discriminate.
  - loop_cases url timeout attempt net; intros Hres; try discriminate.
    + injection Hres as ->. exists 0%nat. cbn. repeat split; [lia | assumption].
    + exfalso. exact (Hnoreturn v0 eq_refl).
    + subst rem. destruct (IH _ _ _ Hres) as (k & Hk & Hv & Hlen).
      exists (S k). rewrite gets_app, gets_cons_get, Hnoget, length_app, Hlen.
      cbn. repeat split; [lia | exact Hv].
Qed.

(** *** Every call *)

Lemma attempts_from_zero : Forall (fun a => 0 <= a) [0; 1; 2].
Proof. repeat constructor; lia. Qed.

Lemma request_gets (self : SunPowerMonitor) (url : string) (timeout : Z)
    (net : Transport) :
  exists n : nat,
    (1 <= n <= 3)%nat /\
    gets (emitted (_request_with_retry self url timeout net))
    = repeat (url, timeout) n.
Proof.
  rewrite request_with_retry_run. cbv zeta. cbn [emitted].
  destruct (for_attempts_gets url timeout [0; 1; 2] None net)
    as (n & Hn & Hle & Hge).
  exists n. split; [| exact Hn].
  split; [apply Hge; discriminate | exact Hle].
Qed.

Lemma request_delays (self : SunPowerMonitor) (url : string) (timeout : Z)
    (net : Transport) :
  let run := _request_with_retry self url timeout net in
  result run <> Exc IndexError /\
  Forall (fun i => 0 <= i < MAX_RETRIES - 1) (delay_indices (emitted run)) /\
  Forall (fun d => d = 2 \/ d = 5) (sleeps (emitted run)).
Proof.
  intros run. subst run.
  rewrite request_with_retry_run. cbv zeta. cbn [result emitted].
  destruct (for_attempts_delays url timeout [0; 1; 2] attempts_from_zero
              None net) as (Hres & Hidx & Hsl).
  split; [| split; assumption].
  destruct (result (for_attempts url timeout [0; 1; 2] None net))
    as [[v | last_error] | e]; try discriminate.
  intros Heq. apply Hres. congruence.
Qed.

Lemma request_typed (self : SunPowerMonitor) (url : string) (timeout : Z)
    (net : Transport) :
  transport_failures_only net ->
  typed_result (result (_request_with_retry self url timeout net)).
Proof.
  intros Hnet.
  pose proof (request_delays self url timeout net) as (Hres & _).
  revert Hres.
  rewrite request_with_retry_run. cbv zeta. cbn [result].
  pose proof (fun e => for_attempts_caught url timeout [0; 1; 2] None net e Hnet)
    as Hcaught.
  destruct (result (for_attempts url timeout [0; 1; 2] None net))
    as [[v | last_error] | [msg cause | msg cause | | e]];
    cbn; intros Hres; try exact I.
  - apply Hres. reflexivity.
  - apply (Hcaught e). reflexivity.
Qed.

Lemma request_value (self : SunPowerMonitor) (url : string) (timeout : Z)
    (net : Transport) (v : JSON) :
  result (_request_with_retry self url timeout net) = Val v ->
  exists k : nat,
    (k < 3)%nat /\
    try_outcome (net k url timeout) = JsonValue v /\
    List.length (gets (emitted (_request_with_retry self url timeout net)))
    = S k.
Proof.
  rewrite request_with_retry_run. cbv zeta. cbn [result emitted].
  destruct (result (for_attempts url timeout [0; 1; 2] None net))
    as [[v' | last_error] | e] eqn:Hres; try discriminate.
  intros Heq. injection Heq as ->.
  exact (for_attempts_value url timeout [0; 1; 2] None net v Hres).
Qed.

(** *** Retry, then success *)

(** C1. When [requests.get] raises a [ConnectionError] on attempts 1 and
    2 and returns a response with valid JSON on attempt 3,
    [_request_with_retry] returns that JSON, sleeps exactly twice, 2
    seconds then 5 seconds, issues exactly 3 GET requests, and the last
    thing it does is the successful request (no sleep follows it). *)
Theorem retry_then_succeed
    (self : SunPowerMonitor) (url : string) (timeout : Z) (net : Transport)
    (e1 e2 : PyError) (response : Response) (v : JSON) :
  net 0%nat url timeout = GetRaises e1 ->
  isinstance e1 ConnectionError = true ->
  net 1%nat url timeout = GetRaises e2 ->
  isinstance e2 ConnectionError = true ->
  net 2%nat url timeout = GetReturns response ->
  json response = JsonValue v ->
  let run := _request_with_retry self url timeout net in
  result run = Val v /\
  sleeps (emitted run) = [2; 5] /\
  gets (emitted run) = [(url, timeout); (url, timeout); (url, timeout)] /\
  last (emitted run) (EvSleep 0) = EvGet url timeout.
Proof.
  intros H1 C1 H2 C2 H3 J3 run. subst run.
  rewrite request_with_retry_run.
  turn_raises (outcome_get_raises _ _ _ _ _ H1)
    (except_retry timeout 0 e1 (next net) 2 C1 eq_refl eq_refl).
  turn_raises (outcome_get_raises _ _ _ _ _ H2)
    (except_retry timeout 1 e2 (next (next net)) 5 C2 eq_refl eq_refl).
  turn_value (outcome_json _ _ _ _ _ _ H3 J3).
  finish_run.
Qed.

Lemma retry_then_succeed_witness :
  (net_refused_twice 0%nat demo_url 120
   = GetRaises (requests_exceptions.ConnectionError_ "refused 1") /\
   net_refused_twice 1%nat demo_url 120
   = GetRaises (requests_exceptions.ConnectionError_ "refused 2") /\
   net_refused_twice 2%nat demo_url 120 = GetReturns ok_response /\
   json ok_response = JsonValue demo_json) /\
  let run := _request_with_retry pvs demo_url 120 net_refused_twice in
  result run = Val demo_json /\
  sleeps (emitted run) = [2; 5] /\
  gets (emitted run) = [(demo_url, 120); (demo_url, 120); (demo_url, 120)] /\
  last (emitted run) (EvSleep 0) = EvGet demo_url 120.
Proof.
  split; [repeat split |].
  apply (retry_then_succeed pvs demo_url 120 net_refused_twice
           (requests_exceptions.ConnectionError_ "refused 1")
           (requests_exceptions.ConnectionError_ "refused 2")
           ok_response demo_json); reflexivity.
Defined.

(** A first attempt that succeeds: the JSON is returned after one request
    and nothing else. *)
Lemma immediate_success
    (self : SunPowerMonitor) (url : string) (timeout : Z) (net : Transport)
    (response : Response) (v : JSON) :
  net 0%nat url timeout = GetReturns response ->
  json response = JsonValue v ->
  let run := _request_with_retry self url timeout net in
  result run = Val v /\ emitted run = [EvGet url timeout].
Proof.
  intros H J run. subst run.
  rewrite request_with_retry_run.
  turn_value (outcome_json _ _ _ _ _ _ H J).
  finish_run.
Qed.

(** *** Exhaustion *)

(** C2. When [requests.get] raises a [ConnectionError] on each of the
    three attempts, [_request_with_retry] raises a [ConnectionException]
    after exactly 3 GET requests and exactly 2 sleeps, 2 seconds then 5
    seconds; the message names the attempt count and the [str()] of the
    error of the last attempt, and the exception is raised [from] that
    error. *)
Theorem exhaustion
    (self : SunPowerMonitor) (url : string) (timeout : Z) (net : Transport)
    (e1 e2 e3 : PyError) :
  net 0%nat url timeout = GetRaises e1 ->
  isinstance e1 ConnectionError = true ->
  net 1%nat url timeout = GetRaises e2 ->
  isinstance e2 ConnectionError = true ->
  net 2%nat url timeout = GetRaises e3 ->
  isinstance e3 ConnectionError = true ->
  let run := _request_with_retry self url timeout net in
  result run =
    Exc (ConnectionException
           ("Failed to connect to PVS after 3 attempts: " ++ err_str e3)
           (Some e3)) /\
  List.length (gets (emitted run)) = 3%nat /\
  sleeps (emitted run) = [2; 5].
Proof.
  intros H1 C1 H2 C2 H3 C3 run. subst run.
  rewrite request_with_retry_run.
  turn_raises (outcome_get_raises _ _ _ _ _ H1)
    (except_retry timeout 0 e1 (next net) 2 C1 eq_refl eq_refl).
  turn_raises (outcome_get_raises _ _ _ _ _ H2)
    (except_retry timeout 1 e2 (next (next net)) 5 C2 eq_refl eq_refl).
  turn_raises (outcome_get_raises _ _ _ _ _ H3)
    (except_last_attempt timeout 2 e3 (next (next (next net))) C3 eq_refl).
  finish_run.
Qed.

Lemma exhaustion_witness :
  (forall k : nat,
     net_always_refused k demo_url 120
     = GetRaises (requests_exceptions.ConnectionError_
                    ("refused " ++ str_int (Z.of_nat (S k))))) /\
  let run := _request_with_retry pvs demo_url 120 net_always_refused in
  result run =
    Exc (ConnectionException
           "Failed to connect to PVS after 3 attempts: refused 3"
           (Some (requests_exceptions.ConnectionError_ "refused 3"))) /\
  List.length (gets (emitted run)) = 3%nat /\
  sleeps (emitted run) = [2; 5].
Proof.
  split; [reflexivity |].
  apply (exhaustion pvs demo_url 120 net_always_refused
           (requests_exceptions.ConnectionError_ "refused 1")
           (requests_exceptions.ConnectionError_ "refused 2")
           (requests_exceptions.ConnectionError_ "refused 3")); reflexivity.
Defined.

(** *** Failures that are not retried *)

(** C5. When [requests.get] raises on attempt 1 a [RequestException]
    that is neither a [ConnectionError] nor a [Timeout],
    [_request_with_retry] raises a [ConnectionException] whose message
    carries that error and which is raised [from] it, after exactly one
    GET request and without sleeping. *)
Theorem generic_failure_stops
    (self : SunPowerMonitor) (url : string) (timeout : Z) (net : Transport)
    (e : PyError) :
  net 0%nat url timeout = GetRaises e ->
  isinstance e ConnectionError = false ->
  isinstance e Timeout = false ->
  isinstance e RequestException = true ->
  let run := _request_with_retry self url timeout net in
  result run =
    Exc (ConnectionException
           ("Failed to connect to PVS after 3 attempts: " ++ err_str e)
           (Some e)) /\
  gets (emitted run) = [(url, timeout)] /\
  sleeps (emitted run) = [].
Proof.
  intros H Hc Ht Hr run. subst run.
  rewrite request_with_retry_run.
  turn_raises (outcome_get_raises _ _ _ _ _ H)
    (except_request_exception timeout 0 e (next net) Hc Ht Hr).
  finish_run.
Qed.

Lemma generic_failure_stops_witness :
  (net_http_error 0%nat demo_url 120
   = GetRaises (requests_exceptions.HTTPError "too many redirects") /\
   isinstance (requests_exceptions.HTTPError "too many redirects")
     ConnectionError = false /\
   isinstance (requests_exceptions.HTTPError "too many redirects")
     Timeout = false /\
   isinstance (requests_exceptions.HTTPError "too many redirects")
     RequestException = true) /\
  let run := _request_with_retry pvs demo_url 120 net_http_error in
  result run =
    Exc (ConnectionException
           "Failed to connect to PVS after 3 attempts: too many redirects"
           (Some (requests_exceptions.HTTPError "too many redirects"))) /\
  gets (emitted run) = [(demo_url, 120)] /\
  sleeps (emitted run) = [].
Proof.
  split; [repeat split |].
  apply (generic_failure_stops pvs demo_url 120 net_http_error
           (requests_exceptions.HTTPError "too many redirects"));
    reflexivity.
Defined.

(** A timeout that is not also a [ConnectionError] (a [ReadTimeout], a
    plain [Timeout]) ends the call at once, at whatever attempt it
    comes: after [k] refused connections the call has made [k + 1]
    requests and slept [k] times. *)
Lemma plain_timeout_not_retried
    (self : SunPowerMonitor) (url : string) (timeout : Z) (net : Transport)
    (k : nat) (e : PyError) :
  (k < 3)%nat ->
  (forall i, (i < k)%nat ->
     exists ei, net i url timeout = GetRaises ei /\
                isinstance ei ConnectionError = true) ->
  net k url timeout = GetRaises e ->
  isinstance e ConnectionError = false ->
  isinstance e Timeout = true ->
  let run := _request_with_retry self url timeout net in
  result run =
    Exc (ConnectionException
           ("PVS request timed out after " ++ str_int timeout ++ "s")
           (Some e)) /\
  List.length (gets (emitted run)) = S k /\
  List.length (sleeps (emitted run)) = k.
Proof.
  intros Hk Hbefore H Hc Ht run. subst run.
  rewrite request_with_retry_run.
  destruct k as [| [| [| k]]]; [ | | | lia].
  - turn_raises (outcome_get_raises _ _ _ _ _ H)
      (except_timeout timeout 0 e (next net) Hc Ht).
    finish_run.
  - destruct (Hbefore 0%nat) as (e1 & H1 & C1); [lia |].
    turn_raises (outcome_get_raises _ _ _ _ _ H1)
      (except_retry timeout 0 e1 (next net) 2 C1 eq_refl eq_refl).
    turn_raises (outcome_get_raises _ _ _ _ _ H)
      (except_timeout timeout 1 e (next (next net)) Hc Ht).
    finish_run.
  - destruct (Hbefore 0%nat) as (e1 & H1 & C1); [lia |].
    destruct (Hbefore 1%nat) as (e2 & H2 & C2); [lia |].
    turn_raises (outcome_get_raises _ _ _ _ _ H1)
      (except_retry timeout 0 e1 (next net) 2 C1 eq_refl eq_refl).
    turn_raises (outcome_get_raises _ _ _ _ _ H2)
      (except_retry timeout 1 e2 (next (next net)) 5 C2 eq_refl eq_refl).
    turn_raises (outcome_get_raises _ _ _ _ _ H)
      (except_timeout timeout 2 e (next (next (next net))) Hc Ht).
    finish_run.
Qed.

Example read_timeout_not_retried :
  let run := _request_with_retry pvs demo_url 120 net_read_timeout in
  result run =
    Exc (ConnectionException "PVS request timed out after 120s"
           (Some (requests_exceptions.ReadTimeout "read timed out"))) /\
  List.length (gets (emitted run)) = 1%nat /\
  List.length (sleeps (emitted run)) = 0%nat.
Proof.
  apply (plain_timeout_not_retried pvs demo_url 120 net_read_timeout 0
           (requests_exceptions.ReadTimeout "read timed out"));
    try reflexivity; lia.
Qed.

(** A [ConnectTimeout] is an instance of [Timeout] and of
    [ConnectionError]: the first [except] clause selects it. *)
Lemma connect_timeout_classes (msg : string) :
  isinstance (requests_exceptions.ConnectTimeout msg) Timeout = true /\
  isinstance (requests_exceptions.ConnectTimeout msg) ConnectionError = true.
Proof. split; reflexivity. Qed.

(** So a first attempt that ends in such an exception is followed by a
    sleep of 2 seconds and by a second request. *)
Lemma timeout_with_connection_error_retried
    (self : SunPowerMonitor) (url : string) (timeout : Z) (net : Transport)
    (e : PyError) :
  net 0%nat url timeout = GetRaises e ->
  isinstance e Timeout = true ->
  isinstance e ConnectionError = true ->
  let run := _request_with_retry self url timeout net in
  (exists n : nat,
     (2 <= n)%nat /\ gets (emitted run) = repeat (url, timeout) n) /\
  (exists later : list Z, sleeps (emitted run) = 2 :: later).
Proof.
  intros H _ Hc run. subst run.
  rewrite request_with_retry_run.
  turn_raises (outcome_get_raises _ _ _ _ _ H)
    (except_retry timeout 0 e (next net) 2 Hc eq_refl eq_refl).
  unfold prepend. cbn [result emitted remaining].
  rewrite gets_app, sleeps_app.
  destruct (for_attempts_gets url timeout [1; 2] (Some e) (next net))
    as (n & Hn & _ & Hge).
  split.
  - exists (S n). rewrite Hn. split; [| reflexivity].
    assert (1 <= n)%nat by (apply Hge; discriminate). lia.
  - eexists. reflexivity.
Qed.

(** C4 (the code differs).  On a network where every [requests.get]
    ends in a [ConnectTimeout], which is a timeout, the call does not
    stop at the first attempt: it makes 3 requests, sleeps 2 then 5
    seconds, and raises the [ConnectionException] of an exhausted loop,
    whose message does not speak of a timeout. *)
Theorem connect_timeout_is_retried :
  isinstance (requests_exceptions.ConnectTimeout "connect timed out") Timeout
  = true /\
  result run_connect_timeout =
    Exc (ConnectionException
           "Failed to connect to PVS after 3 attempts: connect timed out"
           (Some (requests_exceptions.ConnectTimeout "connect timed out"))) /\
  gets (emitted run_connect_timeout)
  = [(demo_url, 120); (demo_url, 120); (demo_url, 120)] /\
  sleeps (emitted run_connect_timeout) = [2; 5].
Proof. repeat split. Qed.

(** C9 (the code differs).  With [k = 1]: the first [requests.get] ends
    in a [ConnectTimeout] and the host answers afterwards.  The call
    does not raise: it sleeps 2 seconds, makes a second request and
    returns its JSON. *)
Theorem connect_timeout_uses_retry_budget :
  net_connect_timeout_once 0%nat demo_url 120
  = GetRaises (requests_exceptions.ConnectTimeout "connect timed out") /\
  isinstance (requests_exceptions.ConnectTimeout "connect timed out") Timeout
  = true /\
  result run_connect_timeout_once = Val demo_json /\
  gets (emitted run_connect_timeout_once) = [(demo_url, 120); (demo_url, 120)] /\
  sleeps (emitted run_connect_timeout_once) = [2].
Proof. repeat split. Qed.

(** *** A body that is not JSON *)

(** Where [response.json()] raises the [JSONDecodeError] of simplejson
    itself, which is not a [RequestException], the call raises a
    [ParseException] after one request and no sleep. *)
Lemma invalid_json_simplejson
    (self : SunPowerMonitor) (url : string) (timeout : Z) (net : Transport)
    (response : Response) (e : PyError) :
  net 0%nat url timeout = GetReturns response ->
  json response = JsonRaises e ->
  isinstance e ConnectionError = false ->
  isinstance e Timeout = false ->
  isinstance e RequestException = false ->
  isinstance e JSONDecodeError = true ->
  let run := _request_with_retry self url timeout net in
  result run =
    Exc (ParseException ("Invalid JSON response from PVS: " ++ err_str e)
           (Some e)) /\
  gets (emitted run) = [(url, timeout)] /\
  sleeps (emitted run) = [].
Proof.
  intros H J Hc Ht Hr Hj run. subst run.
  rewrite request_with_retry_run.
  turn_raises (outcome_json _ _ _ _ _ _ H J)
    (except_json timeout 0 e (next net) Hc Ht Hr Hj).
  finish_run.
Qed.

Example invalid_json_old_requests :
  let run := _request_with_retry pvs demo_url 120 net_html_body_simplejson in
  result run =
    Exc (ParseException
           "Invalid JSON response from PVS: Expecting value: line 1 column 1 (char 0)"
           (Some (simplejson_errors.JSONDecodeError_
                    "Expecting value: line 1 column 1 (char 0)"))) /\
  gets (emitted run) = [(demo_url, 120)] /\
  sleeps (emitted run) = [].
Proof.
  apply (invalid_json_simplejson pvs demo_url 120 net_html_body_simplejson
           html_response_simplejson
           (simplejson_errors.JSONDecodeError_
              "Expecting value: line 1 column 1 (char 0)"));
    reflexivity.
Qed.

(** Where it raises an exception that is also a [RequestException], as
    [requests.exceptions.JSONDecodeError] is, the third clause selects
    it before the clause for [JSONDecodeError] is reached. *)
Lemma invalid_json_request_exception
    (self : SunPowerMonitor) (url : string) (timeout : Z) (net : Transport)
    (response : Response) (e : PyError) :
  net 0%nat url timeout = GetReturns response ->
  json response = JsonRaises e ->
  isinstance e ConnectionError = false ->
  isinstance e Timeout = false ->
  isinstance e RequestException = true ->
  let run := _request_with_retry self url timeout net in
  result run =
    Exc (ConnectionException
           ("Failed to connect to PVS after 3 attempts: " ++ err_str e)
           (Some e)) /\
  gets (emitted run) = [(url, timeout)] /\
  sleeps (emitted run) = [].
Proof.
  intros H J Hc Ht Hr run. subst run.
  rewrite request_with_retry_run.
  turn_raises (outcome_json _ _ _ _ _ _ H J)
    (except_request_exception timeout 0 e (next net) Hc Ht Hr).
  finish_run.
Qed.

(** C3 (the code differs).  A 200 response with an HTML body, with
    [response.json()] raising [requests.exceptions.JSONDecodeError]: the
    call raises a [ConnectionException], not a [ParseException], after
    one request and no sleep. *)
Theorem invalid_json_raises_connection_exception :
  net_html_body 0%nat demo_url 120 = GetReturns html_response /\
  status_code html_response = 200 /\
  json html_response
  = JsonRaises (requests_exceptions.JSONDecodeError_
                  "Expecting value: line 1 column 1 (char 0)") /\
  isinstance (requests_exceptions.JSONDecodeError_
                "Expecting value: line 1 column 1 (char 0)") JSONDecodeError
  = true /\
  result run_html_body =
    Exc (ConnectionException
           "Failed to connect to PVS after 3 attempts: Expecting value: line 1 column 1 (char 0)"
           (Some (requests_exceptions.JSONDecodeError_
                    "Expecting value: line 1 column 1 (char 0)"))) /\
  gets (emitted run_html_body) = [(demo_url, 120)] /\
  sleeps (emitted run_html_body) = [].
Proof. repeat split. Qed.

(** *** The endpoints *)

Lemma append_assoc (a b c : string) : (a ++ b) ++ c = a ++ (b ++ c).
Proof.
  induction a as [| ch a IH]; [reflexivity |].
  cbn. rewrite IH. reflexivity.
Qed.

Lemma command_url_command (h command : string) :
  command_url (__init__ h) ++ command
  = "http://" ++ h ++ "/cgi-bin/dl_cgi?Command=" ++ command.
Proof.
  unfold __init__. cbn [command_url]. rewrite !append_assoc. reflexivity.
Qed.

(** C7. For every host [h], every request that [device_list] makes goes
    to [http://h/cgi-bin/dl_cgi?Command=DeviceList], every request of
    [network_status] to [http://h/cgi-bin/dl_cgi?Command=Get_Comm], and
    every request of [energy_storage_system_status] to
    [http://h/cgi-bin/dl_cgi/energy-storage-system/status], each on the
    object that [__init__ h] builds; the last holds as well of any
    object with host [h], whatever its command URL is.  Each call makes
    between 1 and 3 requests, all with a timeout of 120 seconds. *)
Theorem endpoint_urls (h : string) (net : Transport) :
  (exists n : nat,
     (1 <= n <= 3)%nat /\
     gets (emitted (device_list (__init__ h) net))
     = repeat ("http://" ++ h ++ "/cgi-bin/dl_cgi?Command=DeviceList", 120) n) /\
  (exists n : nat,
     (1 <= n <= 3)%nat /\
     gets (emitted (network_status (__init__ h) net))
     = repeat ("http://" ++ h ++ "/cgi-bin/dl_cgi?Command=Get_Comm", 120) n) /\
  (exists n : nat,
     (1 <= n <= 3)%nat /\
     gets (emitted (energy_storage_system_status (__init__ h) net))
     = repeat ("http://" ++ h
               ++ "/cgi-bin/dl_cgi/energy-storage-system/status", 120) n) /\
  (forall template : string,
   exists n : nat,
     (1 <= n <= 3)%nat /\
     gets (emitted (energy_storage_system_status
                      (mkSunPowerMonitor h template) net))
     = repeat ("http://" ++ h
               ++ "/cgi-bin/dl_cgi/energy-storage-system/status", 120) n).
Proof.
  split; [| split; [| split]].
  - unfold device_list, generic_command. rewrite command_url_command.
    apply request_gets.
  - unfold network_status, generic_command. rewrite command_url_command.
    apply request_gets.
  - unfold energy_storage_system_status, __init__. cbn [host].
    apply request_gets.
  - intros template. unfold energy_storage_system_status. cbn [host].
    apply request_gets.
Qed.

(** *** The retry policy *)

(** C8 as stated does not hold: [RETRY_DELAYS] has 3 entries, and
    [MAX_RETRIES - 1] is 2. *)
Lemma delays_not_one_fewer :
  Z.of_nat (List.length RETRY_DELAYS) <> MAX_RETRIES - 1.
Proof. discriminate. Qed.

(** C8, amended.  [RETRY_DELAYS] has as many entries as there are
    attempts, [MAX_RETRIES]; a call reads it only at indices below
    [MAX_RETRIES - 1], so the delays in use are one fewer. *)
Theorem delays_as_many_as_attempts :
  Z.of_nat (List.length RETRY_DELAYS) = MAX_RETRIES /\
  forall (self : SunPowerMonitor) (url : string) (timeout : Z)
         (net : Transport),
    Forall (fun i => 0 <= i < MAX_RETRIES - 1)
      (delay_indices (emitted (_request_with_retry self url timeout net))).
Proof.
  split; [reflexivity |].
  intros self url timeout net.
  apply (request_delays self url timeout net).
Qed.

(** C10. Whatever the network does, [_request_with_retry] ends (it is a
    total function of the network) after at most [MAX_RETRIES] = 3 GET
    requests; it never raises [IndexError]; every index at which it
    reads [RETRY_DELAYS] is within the list; index 2 is never read, and
    no sleep lasts the 10 seconds of the third entry. *)
Theorem bounded_requests_and_indices
    (self : SunPowerMonitor) (url : string) (timeout : Z) (net : Transport) :
  (List.length (gets (emitted (_request_with_retry self url timeout net)))
   <= Z.to_nat MAX_RETRIES)%nat /\
  result (_request_with_retry self url timeout net) <> Exc IndexError /\
  Forall (fun i => 0 <= i < Z.of_nat (List.length RETRY_DELAYS))
    (delay_indices (emitted (_request_with_retry self url timeout net))) /\
  ~ In 2 (delay_indices (emitted (_request_with_retry self url timeout net))) /\
  ~ In 10 (sleeps (emitted (_request_with_retry self url timeout net))).
Proof.
  destruct (request_gets self url timeout net) as (n & [_ Hn] & Hgets).
  destruct (request_delays self url timeout net) as (Hres & Hidx & Hsl).
  rewrite Forall_forall in Hidx, Hsl.
  repeat split.
  - rewrite Hgets, repeat_length. exact Hn.
  - exact Hres.
  - rewrite Forall_forall. intros i Hi. apply Hidx in Hi.
    unfold MAX_RETRIES in Hi. cbn. lia.
  - intros Hin. apply Hidx in Hin. unfold MAX_RETRIES in Hin. lia.
  - intros Hin. apply Hsl in Hin. lia.
Qed.

(** ** Further properties of the module *)

(** *** All the runs of a call *)

(** On a concrete attempt number, drop the cases that the guard
    [attempt < MAX_RETRIES - 1] or the length of [RETRY_DELAYS] rule out,
    and read the delay. *)
Ltac absurd_guard :=
  match goal with
  | H : (_ <? _) = _ |- _ => solve [vm_compute in H; discriminate H]
  | H : getitem RETRY_DELAYS _ = None |- _ =>
      solve [vm_compute in H; discriminate H]
  end.

Ltac known_delay :=
  repeat match goal with
    | H : getitem RETRY_DELAYS _ = Some _ |- _ =>
        vm_compute in H; injection H as <-
    end.

(** Split the turn numbered [attempt] on how its [try] block ends and on
    the clause that handles its exception. *)
Ltac turn_split url timeout attempt net :=
  rewrite (for_attempts_cons url timeout attempt);
  let v := fresh "v" in
  let e := fresh "e" in
  let Hout := fresh "Hout" in
  destruct (try_outcome (net 0%nat url timeout)) as [v | e] eqn:Hout;
  [ | handler_cases timeout attempt e (next net);
      try absurd_guard; known_delay;
      cbv zeta; cbn [result emitted remaining] ].

(** The sixteen ways a call of [_request_with_retry] can go. *)
Ltac all_runs url timeout net :=
  rewrite !request_with_retry_run;
  turn_split url timeout 0 net;
  try turn_split url timeout 1 (next net);
  try turn_split url timeout 2 (next (next net));
  cbn [for_attempts]; unfold ret, prepend;
  cbv zeta; cbn [result emitted remaining app].

(** X2. The sleeps of a call are fixed by the number of its requests:
    after [n] requests the call has slept [n - 1] times, for the first
    [n - 1] delays of the schedule 2, 5. *)
Theorem sleeps_follow_requests
    (self : SunPowerMonitor) (url : string) (timeout : Z) (net : Transport) :
  sleeps (emitted (_request_with_retry self url timeout net))
  = firstn
      (List.length (gets (emitted (_request_with_retry self url timeout net))) - 1)
      [2; 5].
Proof.
  all_runs url timeout net; reflexivity.
Qed.

(** X8. The log of a call.  A warning is logged for every sleep and only
    then.  A call that returns logs no error; a call that raises a
    [ConnectionException] or a [ParseException] logs exactly one error,
    and that is the last thing it does before raising; an exception that
    no handler names leaves without a log entry. *)
Theorem logging_discipline
    (self : SunPowerMonitor) (url : string) (timeout : Z) (net : Transport) :
  List.length (logged WARNING (emitted (_request_with_retry self url timeout net)))
  = List.length (sleeps (emitted (_request_with_retry self url timeout net))) /\
  match result (_request_with_retry self url timeout net) with
  | Val _ =>
      logged ERROR (emitted (_request_with_retry self url timeout net)) = []
  | Exc (ConnectionException _ _) | Exc (ParseException _ _) =>
      exists msg : string,
        logged ERROR (emitted (_request_with_retry self url timeout net))
        = [msg] /\
        last (emitted (_request_with_retry self url timeout net)) (EvSleep 0)
        = EvLog ERROR msg
  | Exc IndexError => False
  | Exc (Unhandled _) =>
      logged ERROR (emitted (_request_with_retry self url timeout net)) = []
  end.
Proof.
  all_runs url timeout net;
    (split; [reflexivity |]);
    first [reflexivity | eexists; split; reflexivity].
Qed.

(** X4. Every exception of the module that a call raises is raised
    [from] the exception of the last request the call made: the cause is
    never missing and never an error of an earlier attempt. *)
Theorem failure_chained_to_last_error
    (self : SunPowerMonitor) (url : string) (timeout : Z) (net : Transport)
    (msg : string) (cause : option PyError) :
  result (_request_with_retry self url timeout net)
  = Exc (ConnectionException msg cause) \/
  result (_request_with_retry self url timeout net)
  = Exc (ParseException msg cause) ->
  exists e : PyError,
    cause = Some e /\
    try_outcome
      (net (last_request (_request_with_retry self url timeout net)) url timeout)
    = JsonRaises e.
Proof.
  all_runs url timeout net;
    (intros [Hres | Hres]; try discriminate Hres);
    injection Hres as <- <-;
    (eexists; split; [reflexivity |]);
    match goal with
    | H : try_outcome _ = JsonRaises ?e |- _ = JsonRaises ?e => exact H
    end.
Qed.

Lemma failure_chained_to_last_error_witness :
  result (_request_with_retry pvs demo_url 120 net_refused_then_http_error)
  = Exc (ConnectionException
           "Failed to connect to PVS after 3 attempts: too many redirects"
           (Some (requests_exceptions.HTTPError "too many redirects"))) /\
  exists e : PyError,
    Some (requests_exceptions.HTTPError "too many redirects") = Some e /\
    try_outcome
      (net_refused_then_http_error
         (last_request
            (_request_with_retry pvs demo_url 120 net_refused_then_http_error))
         demo_url 120)
    = JsonRaises e.
Proof.
  split; [reflexivity |].
  apply (failure_chained_to_last_error pvs demo_url 120
           net_refused_then_http_error
           "Failed to connect to PVS after 3 attempts: too many redirects").
  left. reflexivity.
Defined.

(** X5. A [ParseException] is raised only for an exception that is a
    [JSONDecodeError] and none of [RequestException], [Timeout] and
    [ConnectionError]; its message is the fixed prefix followed by the
    text of that exception. *)
Theorem parse_exception_only_for_json_errors
    (self : SunPowerMonitor) (url : string) (timeout : Z) (net : Transport)
    (msg : string) (cause : option PyError) :
  result (_request_with_retry self url timeout net)
  = Exc (ParseException msg cause) ->
  exists e : PyError,
    cause = Some e /\
    msg = "Invalid JSON response from PVS: " ++ err_str e /\
    isinstance e JSONDecodeError = true /\
    isinstance e RequestException = false /\
    isinstance e Timeout = false /\
    isinstance e ConnectionError = false.
Proof.
  all_runs url timeout net;
    (intros Hres; try discriminate Hres);
    injection Hres as <- <-;
    eexists; repeat split; assumption.
Qed.

Lemma parse_exception_only_for_json_errors_witness :
  result (_request_with_retry pvs demo_url 120 net_refused_then_html)
  = Exc (ParseException
           "Invalid JSON response from PVS: Expecting value: line 1 column 1 (char 0)"
           (Some (simplejson_errors.JSONDecodeError_
                    "Expecting value: line 1 column 1 (char 0)"))) /\
  exists e : PyError,
    Some (simplejson_errors.JSONDecodeError_
            "Expecting value: line 1 column 1 (char 0)") = Some e /\
    "Invalid JSON response from PVS: Expecting value: line 1 column 1 (char 0)"
    = "Invalid JSON response from PVS: " ++ err_str e /\
    isinstance e JSONDecodeError = true /\
    isinstance e RequestException = false /\
    isinstance e Timeout = false /\
    isinstance e ConnectionError = false.
Proof.
  split; [reflexivity |].
  apply (parse_exception_only_for_json_errors pvs demo_url 120
           net_refused_then_html).
  reflexivity.
Defined.

(** X6. A [ConnectionException] has one of two messages.  The timeout
    message, with the timeout of the call, stands for a [Timeout] that is
    not a [ConnectionError].  The message "Failed to connect to PVS after
    3 attempts" stands for a [ConnectionError], and then the call did
    make 3 requests, or for another [RequestException], after 1 to 3
    requests. *)
Theorem connection_exception_messages
    (self : SunPowerMonitor) (url : string) (timeout : Z) (net : Transport)
    (msg : string) (cause : option PyError) :
  result (_request_with_retry self url timeout net)
  = Exc (ConnectionException msg cause) ->
  exists e : PyError,
    cause = Some e /\
    ((msg = "PVS request timed out after " ++ str_int timeout ++ "s" /\
      isinstance e ConnectionError = false /\
      isinstance e Timeout = true) \/
     (msg = "Failed to connect to PVS after 3 attempts: " ++ err_str e /\
      isinstance e ConnectionError = true /\
      List.length (gets (emitted (_request_with_retry self url timeout net)))
      = 3%nat) \/
     (msg = "Failed to connect to PVS after 3 attempts: " ++ err_str e /\
      isinstance e ConnectionError = false /\
      isinstance e Timeout = false /\
      isinstance e RequestException = true)).
Proof.
  all_runs url timeout net;
    (intros Hres; try discriminate Hres);
    injection Hres as <- <-;
    eexists; (split; [reflexivity |]);
    first
      [ solve [left; repeat split; assumption]
      | solve [right; left; repeat split; assumption]
      | solve [right; right; repeat split; assumption] ].
Qed.

Lemma connection_exception_messages_witness :
  result (_request_with_retry pvs demo_url 120 net_read_timeout)
  = Exc (ConnectionException "PVS request timed out after 120s"
           (Some (requests_exceptions.ReadTimeout "read timed out"))) /\
  exists e : PyError,
    Some (requests_exceptions.ReadTimeout "read timed out") = Some e /\
    (("PVS request timed out after 120s"
      = "PVS request timed out after " ++ str_int 120 ++ "s" /\
      isinstance e ConnectionError = false /\
      isinstance e Timeout = true) \/
     ("PVS request timed out after 120s"
      = "Failed to connect to PVS after 3 attempts: " ++ err_str e /\
      isinstance e ConnectionError = true /\
      List.length
        (gets (emitted (_request_with_retry pvs demo_url 120 net_read_timeout)))
      = 3%nat) \/
     ("PVS request timed out after 120s"
      = "Failed to connect to PVS after 3 attempts: " ++ err_str e /\
      isinstance e ConnectionError = false /\
      isinstance e Timeout = false /\
      isinstance e RequestException = true)).
Proof.
  split; [reflexivity |].
  apply (connection_exception_messages pvs demo_url 120 net_read_timeout).
  reflexivity.
Defined.

(** *** After some refused connections *)

(** The turn of a refused connection that is not the last attempt. *)
Ltac refused_turn Hbefore i timeout attempt delay net :=
  let ei := fresh "e" in
  let Hi := fresh "H" in
  let Ci := fresh "C" in
  destruct (Hbefore i) as (ei & Hi & Ci); [lia |];
  turn_raises (outcome_get_raises _ _ _ _ _ Hi)
    (except_retry timeout attempt ei net delay Ci eq_refl eq_refl).

(** X1. A response with JSON ends the call at whatever attempt it comes,
    and whatever its status code: after [k] refused connections the call
    returns the JSON, having made [k + 1] requests, slept for the first
    [k] delays and logged no error. *)
Theorem success_after_refusals
    (self : SunPowerMonitor) (url : string) (timeout : Z) (net : Transport)
    (k : nat) (response : Response) (v : JSON) :
  (k < 3)%nat ->
  refused_before k url timeout net ->
  net k url timeout = GetReturns response ->
  json response = JsonValue v ->
  let run := _request_with_retry self url timeout net in
  result run = Val v /\
  gets (emitted run) = repeat (url, timeout) (S k) /\
  sleeps (emitted run) = firstn k [2; 5] /\
  logged ERROR (emitted run) = [].
Proof.
  intros Hk Hbefore H J run. subst run. unfold refused_before in Hbefore.
  rewrite request_with_retry_run.
  destruct k as [| [| [| k]]]; [ | | | lia].
  - turn_value (outcome_json _ _ _ _ _ _ H J).
    finish_run.
  - refused_turn Hbefore 0%nat timeout 0 2 (next net).
    turn_value (outcome_json _ _ _ _ _ _ H J).
    finish_run.
  - refused_turn Hbefore 0%nat timeout 0 2 (next net).
    refused_turn Hbefore 1%nat timeout 1 5 (next (next net)).
    turn_value (outcome_json _ _ _ _ _ _ H J).
    finish_run.
Qed.

Lemma success_after_refusals_witness :
  refused_before 2 demo_url 120 net_refused_twice_500 /\
  net_refused_twice_500 2%nat demo_url 120
  = GetReturns (mkResponse 500 (JsonValue demo_json)) /\
  let run := _request_with_retry pvs demo_url 120 net_refused_twice_500 in
  result run = Val demo_json /\
  gets (emitted run) = repeat (demo_url, 120) 3 /\
  sleeps (emitted run) = firstn 2 [2; 5] /\
  logged ERROR (emitted run) = [].
Proof.
  assert (Hbefore : refused_before 2 demo_url 120 net_refused_twice_500).
  { intros i Hi. destruct i as [| [| i]]; [ | | lia];
      eexists; split; reflexivity. }
  split; [exact Hbefore |]. split; [reflexivity |].
  apply (success_after_refusals pvs demo_url 120 net_refused_twice_500 2
           (mkResponse 500 (JsonValue demo_json)) demo_json);
    [lia | exact Hbefore | reflexivity | reflexivity].
Defined.

(** X11. A [RequestException] that is neither a [ConnectionError] nor a
    [Timeout] ends the call at whatever attempt it comes: after [k]
    refused connections the call raises a [ConnectionException] that
    carries this error, not an earlier one, having made [k + 1] requests
    and slept for the first [k] delays. *)
Theorem generic_failure_at_any_attempt
    (self : SunPowerMonitor) (url : string) (timeout : Z) (net : Transport)
    (k : nat) (e : PyError) :
  (k < 3)%nat ->
  refused_before k url timeout net ->
  net k url timeout = GetRaises e ->
  isinstance e ConnectionError = false ->
  isinstance e Timeout = false ->
  isinstance e RequestException = true ->
  let run := _request_with_retry self url timeout net in
  result run =
    Exc (ConnectionException
           ("Failed to connect to PVS after 3 attempts: " ++ err_str e)
           (Some e)) /\
  gets (emitted run) = repeat (url, timeout) (S k) /\
  sleeps (emitted run) = firstn k [2; 5].
Proof.
  intros Hk Hbefore H Hc Ht Hr run. subst run.
  unfold refused_before in Hbefore.
  rewrite request_with_retry_run.
  destruct k as [| [| [| k]]]; [ | | | lia].
  - turn_raises (outcome_get_raises _ _ _ _ _ H)
      (except_request_exception timeout 0 e (next net) Hc Ht Hr).
    finish_run.
  - refused_turn Hbefore 0%nat timeout 0 2 (next net).
    turn_raises (outcome_get_raises _ _ _ _ _ H)
      (except_request_exception timeout 1 e (next (next net)) Hc Ht Hr).
    finish_run.
  - refused_turn Hbefore 0%nat timeout 0 2 (next net).
    refused_turn Hbefore 1%nat timeout 1 5 (next (next net)).
    turn_raises (outcome_get_raises _ _ _ _ _ H)
      (except_request_exception timeout 2 e (next (next (next net))) Hc Ht Hr).
    finish_run.
Qed.

Lemma generic_failure_at_any_attempt_witness :
  refused_before 1 demo_url 120 net_refused_then_http_error /\
  let run :=
    _request_with_retry pvs demo_url 120 net_refused_then_http_error in
  result run =
    Exc (ConnectionException
           "Failed to connect to PVS after 3 attempts: too many redirects"
           (Some (requests_exceptions.HTTPError "too many redirects"))) /\
  gets (emitted run) = repeat (demo_url, 120) 2 /\
  sleeps (emitted run) = firstn 1 [2; 5].
Proof.
  assert (Hbefore : refused_before 1 demo_url 120 net_refused_then_http_error).
  { intros i Hi. destruct i as [| i]; [ | lia]. eexists; split; reflexivity. }
  split; [exact Hbefore |].
  apply (generic_failure_at_any_attempt pvs demo_url 120
           net_refused_then_http_error 1
           (requests_exceptions.HTTPError "too many redirects"));
    [lia | exact Hbefore | reflexivity ..].
Defined.

(** X12. A body on which [response.json()] raises a [JSONDecodeError]
    that is no [RequestException] ends the call at whatever attempt it
    comes: after [k] refused connections the call raises a
    [ParseException] from that error, having made [k + 1] requests and
    slept for the first [k] delays. *)
Theorem parse_failure_at_any_attempt
    (self : SunPowerMonitor) (url : string) (timeout : Z) (net : Transport)
    (k : nat) (response : Response) (e : PyError) :
  (k < 3)%nat ->
  refused_before k url timeout net ->
  net k url timeout = GetReturns response ->
  json response = JsonRaises e ->
  isinstance e ConnectionError = false ->
  isinstance e Timeout = false ->
  isinstance e RequestException = false ->
  isinstance e JSONDecodeError = true ->
  let run := _request_with_retry self url timeout net in
  result run =
    Exc (ParseException ("Invalid JSON response from PVS: " ++ err_str e)
           (Some e)) /\
  gets (emitted run) = repeat (url, timeout) (S k) /\
  sleeps (emitted run) = firstn k [2; 5].
Proof.
  intros Hk Hbefore H J Hc Ht Hr Hj run. subst run.
  unfold refused_before in Hbefore.
  rewrite request_with_retry_run.
  destruct k as [| [| [| k]]]; [ | | | lia].
  - turn_raises (outcome_json _ _ _ _ _ _ H J)
      (except_json timeout 0 e (next net) Hc Ht Hr Hj).
    finish_run.
  - refused_turn Hbefore 0%nat timeout 0 2 (next net).
    turn_raises (outcome_json _ _ _ _ _ _ H J)
      (except_json timeout 1 e (next (next net)) Hc Ht Hr Hj).
    finish_run.
  - refused_turn Hbefore 0%nat timeout 0 2 (next net).
    refused_turn Hbefore 1%nat timeout 1 5 (next (next net)).
    turn_raises (outcome_json _ _ _ _ _ _ H J)
      (except_json timeout 2 e (next (next (next net))) Hc Ht Hr Hj).
    finish_run.
Qed.

Lemma parse_failure_at_any_attempt_witness :
  refused_before 1 demo_url 120 net_refused_then_html /\
  let run := _request_with_retry pvs demo_url 120 net_refused_then_html in
  result run =
    Exc (ParseException
           "Invalid JSON response from PVS: Expecting value: line 1 column 1 (char 0)"
           (Some (simplejson_errors.JSONDecodeError_
                    "Expecting value: line 1 column 1 (char 0)"))) /\
  gets (emitted run) = repeat (demo_url, 120) 2 /\
  sleeps (emitted run) = firstn 1 [2; 5].
Proof.
  assert (Hbefore : refused_before 1 demo_url 120 net_refused_then_html).
  { intros i Hi. destruct i as [| i]; [ | lia]. eexists; split; reflexivity. }
  split; [exact Hbefore |].
  apply (parse_failure_at_any_attempt pvs demo_url 120 net_refused_then_html 1
           html_response_simplejson
           (simplejson_errors.JSONDecodeError_
              "Expecting value: line 1 column 1 (char 0)"));
    [lia | exact Hbefore | reflexivity ..].
Defined.

(** X7. An exception that none of the four clauses names is not
    handled: at whatever attempt it comes, it leaves the call as it is,
    right after the request that raised it, with no log entry for it and
    no sleep after it. *)
Theorem foreign_exception_propagates
    (self : SunPowerMonitor) (url : string) (timeout : Z) (net : Transport)
    (k : nat) (e : PyError) :
  (k < 3)%nat ->
  refused_before k url timeout net ->
  try_outcome (net k url timeout) = JsonRaises e ->
  caught e = false ->
  let run := _request_with_retry self url timeout net in
  result run = Exc (Unhandled e) /\
  gets (emitted run) = repeat (url, timeout) (S k) /\
  logged ERROR (emitted run) = [] /\
  last (emitted run) (EvSleep 0) = EvGet url timeout.
Proof.
  intros Hk Hbefore H Hcaught run. subst run.
  unfold refused_before in Hbefore.
  rewrite request_with_retry_run.
  destruct k as [| [| [| k]]]; [ | | | lia].
  - turn_raises H (except_none timeout 0 e (next net) Hcaught).
    finish_run.
  - refused_turn Hbefore 0%nat timeout 0 2 (next net).
    turn_raises H (except_none timeout 1 e (next (next net)) Hcaught).
    finish_run.
  - refused_turn Hbefore 0%nat timeout 0 2 (next net).
    refused_turn Hbefore 1%nat timeout 1 5 (next (next net)).
    turn_raises H (except_none timeout 2 e (next (next (next net))) Hcaught).
    finish_run.
Qed.

Lemma foreign_exception_propagates_witness :
  refused_before 1 demo_url 120 net_interrupted /\
  caught KeyboardInterrupt = false /\
  let run := _request_with_retry pvs demo_url 120 net_interrupted in
  result run = Exc (Unhandled KeyboardInterrupt) /\
  gets (emitted run) = repeat (demo_url, 120) 2 /\
  logged ERROR (emitted run) = [] /\
  last (emitted run) (EvSleep 0) = EvGet demo_url 120.
Proof.
  assert (Hbefore : refused_before 1 demo_url 120 net_interrupted).
  { intros i Hi. destruct i as [| i]; [ | lia]. eexists; split; reflexivity. }
  split; [exact Hbefore |]. split; [reflexivity |].
  apply (foreign_exception_propagates pvs demo_url 120 net_interrupted 1
           KeyboardInterrupt);
    [lia | exact Hbefore | reflexivity | reflexivity].
Defined.

(** *** The order of the effects *)

(** X10. The whole trace of an exhausted call.  Each of the first two
    refused connections is followed by the reading of its delay, then by
    a warning that names the attempt, the total of 3, the delay and the
    error, and only then by the sleep; the third is followed by one error
    entry that names the last error, and by nothing else. *)
Theorem exhaustion_trace
    (self : SunPowerMonitor) (url : string) (timeout : Z) (net : Transport)
    (e1 e2 e3 : PyError) :
  net 0%nat url timeout = GetRaises e1 ->
  isinstance e1 ConnectionError = true ->
  net 1%nat url timeout = GetRaises e2 ->
  isinstance e2 ConnectionError = true ->
  net 2%nat url timeout = GetRaises e3 ->
  isinstance e3 ConnectionError = true ->
  emitted (_request_with_retry self url timeout net)
  = [ EvGet url timeout;
      EvDelayIndex 0;
      EvLog WARNING
        ("PVS connection failed (attempt 1/3), retrying in 2s: " ++ err_str e1);
      EvSleep 2;
      EvGet url timeout;
      EvDelayIndex 1;
      EvLog WARNING
        ("PVS connection failed (attempt 2/3), retrying in 5s: " ++ err_str e2);
      EvSleep 5;
      EvGet url timeout;
      EvLog ERROR
        ("PVS connection failed after 3 attempts: " ++ err_str e3) ].
Proof.
  intros H1 C1 H2 C2 H3 C3.
  rewrite request_with_retry_run.
  turn_raises (outcome_get_raises _ _ _ _ _ H1)
    (except_retry timeout 0 e1 (next net) 2 C1 eq_refl eq_refl).
  turn_raises (outcome_get_raises _ _ _ _ _ H2)
    (except_retry timeout 1 e2 (next (next net)) 5 C2 eq_refl eq_refl).
  turn_raises (outcome_get_raises _ _ _ _ _ H3)
    (except_last_attempt timeout 2 e3 (next (next (next net))) C3 eq_refl).
  reflexivity.
Qed.

Lemma exhaustion_trace_witness :
  emitted (_request_with_retry pvs demo_url 120 net_always_refused)
  = [ EvGet demo_url 120;
      EvDelayIndex 0;
      EvLog WARNING
        "PVS connection failed (attempt 1/3), retrying in 2s: refused 1";
      EvSleep 2;
      EvGet demo_url 120;
      EvDelayIndex 1;
      EvLog WARNING
        "PVS connection failed (attempt 2/3), retrying in 5s: refused 2";
      EvSleep 5;
      EvGet demo_url 120;
      EvLog ERROR "PVS connection failed after 3 attempts: refused 3" ].
Proof.
  apply (exhaustion_trace pvs demo_url 120 net_always_refused
           (requests_exceptions.ConnectionError_ "refused 1")
           (requests_exceptions.ConnectionError_ "refused 2")
           (requests_exceptions.ConnectionError_ "refused 3")); reflexivity.
Defined.

(** *** What a call depends on *)

(** The handlers do not look at the network. *)
Lemma except_clauses_any_net (timeout attempt : Z) (error : PyError)
    (net net' : Transport) :
  result (except_clauses timeout attempt error net)
  = result (except_clauses timeout attempt error net') /\
  emitted (except_clauses timeout attempt error net)
  = emitted (except_clauses timeout attempt error net').
Proof.
  unfold except_clauses, bind, index_delays, log, time_sleep, emit, ret, raise.
  destruct (isinstance error ConnectionError);
    [ destruct (attempt <? MAX_RETRIES - 1);
      [ destruct (getitem RETRY_DELAYS attempt) | ]
    | destruct (isinstance error Timeout);
      [ | destruct (isinstance error RequestException);
          [ | destruct (isinstance error JSONDecodeError) ] ] ];
    split; reflexivity.
Qed.

Lemma for_attempts_same_outcomes (url : string) (timeout : Z)
    (attempts : list Z) :
  forall (last_error : option PyError) (net net' : Transport),
  same_outcomes (List.length attempts) url timeout net net' ->
  result (for_attempts url timeout attempts last_error net)
  = result (for_attempts url timeout attempts last_error net') /\
  emitted (for_attempts url timeout attempts last_error net)
  = emitted (for_attempts url timeout attempts last_error net').
Proof.
  induction attempts as [| attempt later IH]; intros last_error net net' Hsame.
  - split; reflexivity.
  - rewrite !for_attempts_cons.
    rewrite (Hsame 0%nat) by (cbn; lia).
    destruct (try_outcome (net' 0%nat url timeout)) as [v | error];
      [split; reflexivity |].
    destruct (except_clauses_any_net timeout attempt error (next net) (next net'))
      as (Hres & Hevs).
    pose proof (except_clauses_remaining timeout attempt error (next net))
      as Hrem.
    pose proof (except_clauses_remaining timeout attempt error (next net'))
      as Hrem'.
    destruct (except_clauses timeout attempt error (next net))
      as [r evs rem].
    destruct (except_clauses timeout attempt error (next net'))
      as [r' evs' rem'].
    cbn [result emitted remaining] in *. subst r' evs' rem rem'.
    cbv zeta. cbn [result emitted remaining].
    destruct r as [[v | le | le] | ex]; try (split; reflexivity).
    destruct (IH le (next net) (next net')) as (IHres & IHevs).
    { intros k Hk. apply (Hsame (S k)). cbn. lia. }
    unfold prepend. cbn [result emitted]. rewrite IHres, IHevs.
    split; reflexivity.
Qed.

(** X3. A call depends on the network only through the way the [try]
    blocks of its first three requests end.  Two networks that agree on
    these (they may differ in status codes, in later answers, in the
    answers for other URLs) give the same result and the same trace; the
    object on which the method is called plays no part. *)
Theorem depends_on_three_outcomes
    (self self' : SunPowerMonitor) (url : string) (timeout : Z)
    (net net' : Transport) :
  same_outcomes 3 url timeout net net' ->
  result (_request_with_retry self url timeout net)
  = result (_request_with_retry self' url timeout net') /\
  emitted (_request_with_retry self url timeout net)
  = emitted (_request_with_retry self' url timeout net').
Proof.
  intros Hsame.
  rewrite !request_with_retry_run. cbv zeta. cbn [result emitted].
  destruct (for_attempts_same_outcomes url timeout [0; 1; 2] None net net'
              Hsame) as (Hres & Hevs).
  rewrite Hres, Hevs. split; reflexivity.
Qed.

Lemma depends_on_three_outcomes_witness :
  same_outcomes 3 demo_url 120 net_refused_twice net_refused_twice_500 /\
  net_refused_twice 2%nat demo_url 120
  <> net_refused_twice_500 2%nat demo_url 120 /\
  result (_request_with_retry pvs demo_url 120 net_refused_twice)
  = result (_request_with_retry (mkSunPowerMonitor "other" "")
              demo_url 120 net_refused_twice_500) /\
  emitted (_request_with_retry pvs demo_url 120 net_refused_twice)
  = emitted (_request_with_retry (mkSunPowerMonitor "other" "")
               demo_url 120 net_refused_twice_500).
Proof.
  assert (Hsame : same_outcomes 3 demo_url 120 net_refused_twice
                    net_refused_twice_500).
  { intros k Hk. destruct k as [| [| [| k]]]; [ | | | lia]; reflexivity. }
  split; [exact Hsame |]. split; [discriminate |].
  apply (depends_on_three_outcomes pvs (mkSunPowerMonitor "other" "")
           demo_url 120 net_refused_twice net_refused_twice_500 Hsame).
Defined.

(** *** Commands *)

(** X9. [generic_command] sends the command as it is given: for every
    host [h] and every command [c], each request of the call goes to
    [http://h/cgi-bin/dl_cgi?Command=c], with nothing escaped or added,
    and with a timeout of 120 seconds; there are 1 to 3 such requests. *)
Theorem generic_command_url (h command : string) (net : Transport) :
  exists n : nat,
    (1 <= n <= 3)%nat /\
    gets (emitted (generic_command (__init__ h) command net))
    = repeat ("http://" ++ h ++ "/cgi-bin/dl_cgi?Command=" ++ command, 120) n.
Proof.
  unfold generic_command. rewrite command_url_command.
  apply request_gets.
Qed.

Lemma generic_command_requests (h command : string) (net : Transport) :
  exists n : nat,
    (1 <= n <= 3)%nat /\
    gets (emitted (generic_command (__init__ h) command net))
    = repeat ("http://" ++ h ++ "/cgi-bin/dl_cgi?Command=" ++ command, 120) n.
Proof.
  unfold generic_command. rewrite command_url_command.
  apply request_gets.
Qed.

Lemma append_cancel_l (a x y : string) : a ++ x = a ++ y -> x = y.
Proof.
  induction a as [| ch a IH]; cbn; intros H; [exact H |].
  injection H as H. exact (IH H).
Qed.

(** X14. For every host the three operations ask for three different
    URLs: no two of [device_list], [network_status] and
    [energy_storage_system_status] ever make the same request. *)
Theorem endpoints_distinct (h : string) (net net' : Transport) :
  (forall u u' : string * Z,
     In u (gets (emitted (device_list (__init__ h) net))) ->
     In u' (gets (emitted (network_status (__init__ h) net'))) ->
     u <> u') /\
  (forall u u' : string * Z,
     In u (gets (emitted (device_list (__init__ h) net))) ->
     In u' (gets (emitted (energy_storage_system_status (__init__ h) net'))) ->
     u <> u') /\
  (forall u u' : string * Z,
     In u (gets (emitted (network_status (__init__ h) net))) ->
     In u' (gets (emitted (energy_storage_system_status (__init__ h) net'))) ->
     u <> u').
Proof.
  destruct (generic_command_requests h "DeviceList" net) as (n1 & _ & H1).
  destruct (generic_command_requests h "Get_Comm" net') as (n2 & _ & H2).
  destruct (generic_command_requests h "Get_Comm" net) as (n2' & _ & H2').
  destruct (request_gets (__init__ h)
              ("http://" ++ h ++ "/cgi-bin/dl_cgi/energy-storage-system/status")
              120 net') as (n3 & _ & H3).
  unfold device_list, network_status, energy_storage_system_status.
  cbn [host __init__].
  rewrite H1, H2, H2', H3.
  repeat split; intros u u' Hu Hu' Heq;
    apply repeat_spec in Hu; apply repeat_spec in Hu'; subst u u';
    injection Heq as Heq;
    apply append_cancel_l in Heq;
    discriminate Heq.
Qed.

(** *** Timeouts that are not connection errors *)

(** X13. A [Timeout] that is not a [ConnectionError] (a read timeout)
    ends the call at whatever attempt it comes: after [k] refused
    connections the call raises the [ConnectionException] with the
    timeout message, from that error, having made [k + 1] requests and
    slept for the first [k] delays; the last thing it does is to log the
    timeout and its error. *)
Theorem read_timeout_at_any_attempt
    (self : SunPowerMonitor) (url : string) (timeout : Z) (net : Transport)
    (k : nat) (e : PyError) :
  (k < 3)%nat ->
  refused_before k url timeout net ->
  net k url timeout = GetRaises e ->
  isinstance e ConnectionError = false ->
  isinstance e Timeout = true ->
  let run := _request_with_retry self url timeout net in
  result run =
    Exc (ConnectionException
           ("PVS request timed out after " ++ str_int timeout ++ "s")
           (Some e)) /\
  gets (emitted run) = repeat (url, timeout) (S k) /\
  sleeps (emitted run) = firstn k [2; 5] /\
  last (emitted run) (EvSleep 0)
  = EvLog ERROR
      ("PVS request timed out after " ++ str_int timeout ++ "s: "
       ++ err_str e).
Proof.
  intros Hk Hbefore H Hc Ht run. subst run.
  unfold refused_before in Hbefore.
  rewrite request_with_retry_run.
  destruct k as [| [| [| k]]]; [ | | | lia].
  - turn_raises (outcome_get_raises _ _ _ _ _ H)
      (except_timeout timeout 0 e (next net) Hc Ht).
    finish_run.
  - refused_turn Hbefore 0%nat timeout 0 2 (next net).
    turn_raises (outcome_get_raises _ _ _ _ _ H)
      (except_timeout timeout 1 e (next (next net)) Hc Ht).
    finish_run.
  - refused_turn Hbefore 0%nat timeout 0 2 (next net).
    refused_turn Hbefore 1%nat timeout 1 5 (next (next net)).
    turn_raises (outcome_get_raises _ _ _ _ _ H)
      (except_timeout timeout 2 e (next (next (next net))) Hc Ht).
    finish_run.
Qed.

Lemma read_timeout_at_any_attempt_witness :
  refused_before 1 demo_url 120 net_refused_then_read_timeout /\
  let run :=
    _request_with_retry pvs demo_url 120 net_refused_then_read_timeout in
  result run =
    Exc (ConnectionException "PVS request timed out after 120s"
           (Some (requests_exceptions.ReadTimeout "read timed out"))) /\
  gets (emitted run) = repeat (demo_url, 120) 2 /\
  sleeps (emitted run) = firstn 1 [2; 5] /\
  last (emitted run) (EvSleep 0)
  = EvLog ERROR "PVS request timed out after 120s: read timed out".
Proof.
  assert (Hbefore : refused_before 1 demo_url 120 net_refused_then_read_timeout).
  { intros i Hi. destruct i as [| i]; [ | lia]. eexists; split; reflexivity. }
  split; [exact Hbefore |].
  apply (read_timeout_at_any_attempt pvs demo_url 120
           net_refused_then_read_timeout 1
           (requests_exceptions.ReadTimeout "read timed out"));
    [lia | exact Hbefore | reflexivity ..].
Defined.

(** *** Typed failures *)

(** C6 as stated does not hold: when [requests.get] raises a
    [ValueError], which none of the clauses names, that exception leaves
    [_request_with_retry], and so [device_list], as it is: the failing
    call raises neither a [ConnectionException] nor a
    [ParseException]. *)
Lemma value_error_escapes :
  result (_request_with_retry pvs demo_url 120 net_value_error)
  = Exc (Unhandled (ValueError "check_hostname requires server_hostname")) /\
  ~ typed_result (result (_request_with_retry pvs demo_url 120 net_value_error)) /\
  ~ typed_result (result (device_list pvs net_value_error)).
Proof.
  split; [reflexivity |]. split; intros H; exact H.
Qed.

Ltac decide_caught :=
  unfold caught;
  repeat match goal with
    | H : isinstance _ _ = _ |- _ => rewrite H
    end;
  reflexivity.

Ltac last_outcome :=
  match goal with
  | H : try_outcome _ = ?x |- try_outcome _ = ?x => exact H
  end.

Lemma request_faithful_end (self : SunPowerMonitor) (url : string)
    (timeout : Z) (net : Transport) :
  faithful_end url timeout net (_request_with_retry self url timeout net).
Proof.
  unfold faithful_end, last_request.
  all_runs url timeout net;
    (split; [reflexivity |]); (split; [cbn; lia |]);
    first
      [ last_outcome
      | eexists; split; [reflexivity |]; split; [decide_caught | last_outcome]
      | split; [decide_caught | last_outcome] ].
Qed.

(** C6, amended.  Whatever the network does, a call of
    [_request_with_retry], and so of [device_list],
    [energy_storage_system_status] and [network_status], ends as its last
    request ended: it raises a [ConnectionException] or a
    [ParseException], from the exception of that request; or that
    exception itself leaves the call, when it is an instance of none of
    the four classes of the handlers; or the call returns the JSON of
    that request, so that no failure is swallowed.  On a network that
    fails only with exceptions of these four classes, nothing but a
    [ConnectionException] or a [ParseException] leaves any of the four
    operations. *)
Theorem only_typed_failures
    (self : SunPowerMonitor) (url : string) (timeout : Z) (net : Transport) :
  (faithful_end url timeout net (_request_with_retry self url timeout net) /\
   faithful_end (command_url self ++ "DeviceList") 120 net
     (device_list self net) /\
   faithful_end
     ("http://" ++ host self ++ "/cgi-bin/dl_cgi/energy-storage-system/status")
     120 net (energy_storage_system_status self net) /\
   faithful_end (command_url self ++ "Get_Comm") 120 net
     (network_status self net)) /\
  (transport_failures_only net ->
   typed_result (result (_request_with_retry self url timeout net)) /\
   typed_result (result (device_list self net)) /\
   typed_result (result (energy_storage_system_status self net)) /\
   typed_result (result (network_status self net))).
Proof.
  split.
  - split; [| split; [| split]]; apply request_faithful_end.
  - intros Hnet.
    split; [| split; [| split]]; apply request_typed; exact Hnet.
Qed.

Lemma only_typed_failures_witness :
  transport_failures_only net_always_refused /\
  faithful_end demo_url 120 net_always_refused
    (_request_with_retry pvs demo_url 120 net_always_refused) /\
  typed_result (result (_request_with_retry pvs demo_url 120 net_always_refused)) /\
  typed_result (result (device_list pvs net_always_refused)).
Proof.
  assert (Hnet : transport_failures_only net_always_refused).
  { intros k url timeout e H. simpl in H. injection H as <-. reflexivity. }
  destruct (only_typed_failures pvs demo_url 120 net_always_refused)
    as ((Hend & _) & Htyped).
  split; [exact Hnet |]. split; [exact Hend |].
  split; apply (Htyped Hnet).
Defined.
